(** * handbreak-monitor: the log-driven status tracker and its ETA estimator

    A shallow embedding of [src/routes/util/LogReader.js].  The class keeps
    one mutable [status] object per instance; [getHBStatusItems] replays the
    activity log through two per-line methods ([addLineIfIsIndicator], then
    [resolveStatus]) and computes the ETA in [calcEta] when the stream
    closes.

    - The methods are functions on the status record, named as in the source.
    - JS numbers are an interface ([JSNumber]); the methods only add,
      subtract, multiply and divide them.
    - Strings are sequences of 8-bit characters.
    - [./HBStatus] and [./ReaderUtil] are records of what [LogReader.js] reads
      from them; every theorem quantifies over both.
    - The event handlers are a step function on a world: a heap of status
      objects, the [this.status] pointer of every instance, and the state of
      every promise.  Handlers run one at a time, to completion. *)

From Stdlib Require Import ZArith QArith Qround Lqa String Ascii DecimalString List Bool Lia.
From stdpp Require Import base option list gmap.
Import ListNotations.

Close Scope Q_scope.
Local Open Scope Z_scope.
Local Open Scope nat_scope.

(** ** JavaScript values *)

(** The arithmetic that [LogReader.js] performs on JS numbers.  The methods
    are written against this interface, so what is proved about them holds
    for IEEE-754 doubles as for any other reading of the operators.
    [nlit z] is the number written [z] (also an array length), [NaN] is what
    [undefined] turns into when it meets an arithmetic operator, and
    [Number_] is the global [Number(...)] applied to a string. *)
Class JSNumber (num : Type) := {
  nlit : Z -> num;
  nadd : num -> num -> num;
  nsub : num -> num -> num;
  nmul : num -> num -> num;
  ndiv : num -> num -> num;
  NaN : num;
  Number_ : string -> num
}.

(** [String.prototype.slice(b, e)]: negative indices count from the end and
    both ends are clamped to the string; [e = None] is an omitted end. *)
Definition js_slice (s : string) (b : Z) (e : option Z) : string :=
  let len := Z.of_nat (String.length s) in
  let clamp (k : Z) := if (k <? 0)%Z then Z.max (len + k) 0 else Z.min k len in
  let from := clamp b in
  let to := match e with None => len | Some k => clamp k end in
  String.substring (Z.to_nat from) (Z.to_nat (Z.max (to - from) 0)) s.

(** White space as [String.prototype.trim] sees it in a log of 8-bit
    characters: space, tab, line feed, vertical tab, form feed, carriage
    return and the no-break space. *)
Definition js_is_space (c : ascii) : bool :=
  let n := nat_of_ascii c in
  (n =? 32) || ((9 <=? n) && (n <=? 13)) || (n =? 160).

Fixpoint js_trim_start (s : string) : string :=
  match s with
  | EmptyString => EmptyString
  | String c s' => if js_is_space c then js_trim_start s' else s
  end.

Fixpoint js_trim_end (s : string) : string :=
  match s with
  | EmptyString => EmptyString
  | String c s' =>
      match js_trim_end s' with
      | EmptyString => if js_is_space c then EmptyString else String c EmptyString
      | t => String c t
      end
  end.

Definition js_trim (s : string) : string := js_trim_end (js_trim_start s).

(** ** The collaborators required by LogReader.js *)

(** [STATUS] of [./HBStatus]: the six symbols the [switch] of
    [resolveStatus] and the tests of [calcEta] distinguish. *)
Inductive STATUS : Set :=
  | SCANNING
  | SCAN_COMPLETE
  | RIPPING
  | RIPPING_SUB_SCAN
  | RIPPING_ENCODING
  | QUEUE_COMPLETE.

#[global] Instance STATUS_eq_dec : EqDecision STATUS.
Proof. solve_decision. Defined.

(** The other exports of [./HBStatus] that [LogReader.js] reads.  The module
    is not part of the sources at hand, so its tables are taken as they are
    used: a regular expression by whether [line.match] finds it. *)
Record HBStatus := {
  ENCODE_STARTED : string;                 (* RIP_PROGRESS_CONSTANTS.ENCODE_STARTED *)
  REVERSE_STATUS_LOOKUP : STATUS -> string;
  TITLE_NUMBER : string -> bool;           (* line.match(RIP_REGEXPS.TITLE_NUMBER) *)
  CHAPTER_PROGRESS : string -> bool        (* line.match(RIP_REGEXPS.CHAPTER_PROGRESS) *)
}.

(** [./ReaderUtil], by the five functions [LogReader.js] calls.  A [Date] is
    kept as the number it becomes under [-] (milliseconds). *)
Record ReaderUtil (num : Type) := {
  lineToStatus : string -> STATUS -> STATUS;
  lineContains : string -> string -> bool;
  getEncodeName : string -> string;
  getDateFromTime : string -> num;
  secondsToFormattedTime : num -> string
}.
Arguments lineToStatus {num} _ _ _.
Arguments lineContains {num} _ _ _.
Arguments getEncodeName {num} _ _.
Arguments getDateFromTime {num} _ _.
Arguments secondsToFormattedTime {num} _ _.

(** ** The status record *)

(** [this.status].  The label [status] is only written when the stream
    closes; until then the property is absent ([None]). *)
Record StatusRecord (num : Type) := {
  currentEncode : string;
  startTime : string;
  endTime : string;
  statusText : STATUS;
  status : option string;
  numChapters : num;
  etaEstimators : list string;
  eta : string
}.
Arguments currentEncode {num} _.
Arguments startTime {num} _.
Arguments endTime {num} _.
Arguments statusText {num} _.
Arguments status {num} _.
Arguments numChapters {num} _.
Arguments etaEstimators {num} _.
Arguments eta {num} _.

(** The return statement [calcEta] leaves through. *)
Inductive EtaExit : Set :=
  | ExitComplete      (* line 131 *)
  | ExitNotRipping    (* line 134 *)
  | ExitTooFew        (* line 137 *)
  | ExitNoDiffs       (* line 150 *)
  | ExitComputed.     (* line 172 *)

Section LogReader.
Context {num : Type} {N : JSNumber num}.
Variable HB : HBStatus.
Variable RU : ReaderUtil num.

Abbreviation Rec := (StatusRecord num).

Definition set_currentEncode (v : string) (st : Rec) : Rec :=
  {| currentEncode := v; startTime := startTime st; endTime := endTime st;
     statusText := statusText st; status := status st;
     numChapters := numChapters st; etaEstimators := etaEstimators st;
     eta := eta st |}.
Definition set_startTime (v : string) (st : Rec) : Rec :=
  {| currentEncode := currentEncode st; startTime := v; endTime := endTime st;
     statusText := statusText st; status := status st;
     numChapters := numChapters st; etaEstimators := etaEstimators st;
     eta := eta st |}.
Definition set_endTime (v : string) (st : Rec) : Rec :=
  {| currentEncode := currentEncode st; startTime := startTime st; endTime := v;
     statusText := statusText st; status := status st;
     numChapters := numChapters st; etaEstimators := etaEstimators st;
     eta := eta st |}.
Definition set_statusText (v : STATUS) (st : Rec) : Rec :=
  {| currentEncode := currentEncode st; startTime := startTime st;
     endTime := endTime st; statusText := v; status := status st;
     numChapters := numChapters st; etaEstimators := etaEstimators st;
     eta := eta st |}.
Definition set_status (v : option string) (st : Rec) : Rec :=
  {| currentEncode := currentEncode st; startTime := startTime st;
     endTime := endTime st; statusText := statusText st; status := v;
     numChapters := numChapters st; etaEstimators := etaEstimators st;
     eta := eta st |}.
Definition set_numChapters (v : num) (st : Rec) : Rec :=
  {| currentEncode := currentEncode st; startTime := startTime st;
     endTime := endTime st; statusText := statusText st; status := status st;
     numChapters := v; etaEstimators := etaEstimators st; eta := eta st |}.
Definition set_etaEstimators (v : list string) (st : Rec) : Rec :=
  {| currentEncode := currentEncode st; startTime := startTime st;
     endTime := endTime st; statusText := statusText st; status := status st;
     numChapters := numChapters st; etaEstimators := v; eta := eta st |}.
Definition set_eta (v : string) (st : Rec) : Rec :=
  {| currentEncode := currentEncode st; startTime := startTime st;
     endTime := endTime st; statusText := statusText st; status := status st;
     numChapters := numChapters st; etaEstimators := etaEstimators st;
     eta := v |}.

(** [clearStats()]: seven assignments; the label [status] is not among
    them. *)
Definition clearStats (st : Rec) : Rec :=
  {| currentEncode := ""; startTime := ""; endTime := "";
     statusText := QUEUE_COMPLETE; status := status st;
     numChapters := nlit (-1); etaEstimators := []; eta := "" |}.

(** [this.status = {}; this.clearStats()] at the start of a query. *)
Definition newStatus : Rec :=
  {| currentEncode := ""; startTime := ""; endTime := "";
     statusText := QUEUE_COMPLETE; status := None;
     numChapters := nlit (-1); etaEstimators := []; eta := "" |}.

(** [addLineIfIsIndicator(line)] *)
Definition addLineIfIsIndicator (st : Rec) (line : string) : Rec :=
  if TITLE_NUMBER HB line then
    set_numChapters (Number_ (js_trim (js_slice line (-2) None))) st
  else if CHAPTER_PROGRESS HB line then
    set_etaEstimators (etaEstimators st ++ [line]) st
  else st.

(** [resolveStatus(line)] *)
Definition resolveStatus (st : Rec) (line : string) : Rec :=
  let lineStatus := lineToStatus RU line (statusText st) in
  let st' :=
    match lineStatus with
    | SCANNING | SCAN_COMPLETE => clearStats st
    | RIPPING =>
        if negb (lineContains RU line (ENCODE_STARTED HB)) then st
        else
          set_currentEncode (getEncodeName RU line)
            (set_startTime (js_slice line 1 (Some 9%Z)) (clearStats st))
    | RIPPING_SUB_SCAN | RIPPING_ENCODING => set_eta "~" st
    | QUEUE_COMPLETE => set_endTime (js_slice line 1 (Some 9%Z)) st
    end in
  set_statusText lineStatus st'.

(** The ['line'] handler of [getHBStatusItems]. *)
Definition onLine (st : Rec) (line : string) : Rec :=
  resolveStatus (addLineIfIsIndicator st line) line.

(** [etaDates]: the [map] of line 139. *)
Definition etaDates (st : Rec) : list num :=
  map (fun est => getDateFromTime RU (js_slice est 1 (Some 9%Z))) (etaEstimators st).

(** An array read [a[i]] that meets an arithmetic operator. *)
Definition js_index (a : list num) (i : Z) : num :=
  if (i <? 0)%Z then NaN else default NaN (a !! Z.to_nat i).

(** [dateDiffs]: the loop of lines 145-146, [i] running from 1 while
    [i < etaDates.length]. *)
Definition dateDiffs (dates : list num) : list num :=
  map (fun i : nat =>
         nsub (js_index dates (Z.of_nat i)) (js_index dates (Z.of_nat i - 1)))
      (seq 1 (length dates - 1)).

(** [sum]: the loop of lines 153-155. *)
Definition sumDiffs (diffs : list num) : num :=
  fold_left (fun sum i => nadd sum (js_index diffs (Z.of_nat i)))
            (seq 0 (length diffs)) (nlit 0).

(** [calcEta()], with the return statement it leaves through.
    [currentDate] is the value of the local of that name (lines 158-160). *)
Definition calcEtaTraced (currentDate : num) (st : Rec) : EtaExit * string :=
  let status := statusText st in
  if bool_decide (status = QUEUE_COMPLETE) then (ExitComplete, "00:00:00"%string)
  else if negb (bool_decide (status = RIPPING_ENCODING))
          && negb (bool_decide (status = RIPPING_SUB_SCAN))
  then (ExitNotRipping, ""%string)
  else if length (etaEstimators st) <? 2 then (ExitTooFew, "~"%string)
  else
    let etaDates := etaDates st in
    let dateDiffs := dateDiffs etaDates in
    if length dateDiffs =? 0 then (ExitNoDiffs, "00:00:00"%string)
    else
      let sum := sumDiffs dateDiffs in
      let numRemainingChapters :=
        nsub (numChapters st) (nlit (Z.of_nat (length (etaEstimators st)))) in
      let avg := ndiv sum (nlit (Z.of_nat (length dateDiffs))) in
      let msSinceCheckin :=
        nsub currentDate (js_index etaDates (Z.of_nat (length etaDates) - 1)) in
      let timeInSecs :=
        ndiv (nsub (nmul avg numRemainingChapters) msSinceCheckin) (nlit 1000) in
      (ExitComputed, secondsToFormattedTime RU timeInSecs).

Definition calcEta (currentDate : num) (st : Rec) : string :=
  snd (calcEtaTraced currentDate st).

(** The ['close'] handler up to [resolve]: the label, then the ETA. *)
Definition onClose (currentDate : num) (st : Rec) : Rec :=
  let st1 := set_status (Some (REVERSE_STATUS_LOOKUP HB (statusText st))) st in
  set_eta (calcEta currentDate st1) st1.

(** A whole replay that ends normally: what one query alone resolves with. *)
Definition replay (lines : list string) : Rec := fold_left onLine lines newStatus.

End LogReader.

(** ** The event handlers of getHBStatusItems

    Status objects live in a heap; [this.status] of an instance is a pointer
    into it, read anew by every handler when it runs.  A promise is settled
    once: a later [resolve] or [reject] does nothing. *)

Inductive PromiseState : Set :=
  | Pending
  | Fulfilled (obj : nat)       (* resolve(this.status): the object itself *)
  | Rejected (err : string).

(** What the readline interface of a query emits.  [EvClose] carries what
    [new Date()] reads when the handler runs. *)
Inductive StreamEvent (num : Type) : Type :=
  | EvLine (l : string)
  | EvError (err : string)
  | EvClose (clock : num).
Arguments EvLine {num} _.
Arguments EvError {num} _.
Arguments EvClose {num} _.

(** [Call i q]: query [q] is started by calling [getHBStatusItems] on the
    instance [i] (the promise executor runs).  [Emit i q ev]: the interface
    of query [q], whose handlers close over instance [i], emits [ev]. *)
Inductive Event (num : Type) : Type :=
  | Call (i q : nat)
  | Emit (i q : nat) (ev : StreamEvent num).
Arguments Call {num} _ _.
Arguments Emit {num} _ _ _.

Record World (num : Type) := {
  heap : list (StatusRecord num);
  this_status : gmap nat nat;
  promises : gmap nat PromiseState
}.
Arguments heap {num} _.
Arguments this_status {num} _.
Arguments promises {num} _.

(** What the caller of a query holds. *)
Inductive Outcome (num : Type) : Type :=
  | NoPromise
  | StillPending
  | Delivered (snapshot : StatusRecord num)
  | Failed (err : string).
Arguments NoPromise {num}.
Arguments StillPending {num}.
Arguments Delivered {num} _.
Arguments Failed {num} _.

Section Runtime.
Context {num : Type} {N : JSNumber num}.
Variable HB : HBStatus.
Variable RU : ReaderUtil num.
(** [testSeam_currentTime] of each instance, as its constructor received it. *)
Variable testSeam_currentTime : nat -> option num.

(** [currentDate] of [calcEta], lines 158-160. *)
Definition currentDate (i : nat) (clock : num) : num :=
  match testSeam_currentTime i with
  | Some mockedTime => mockedTime
  | None => clock
  end.

(** A handler of instance [i] mutating [this.status] in place. *)
Definition update_status (i : nat) (f : StatusRecord num -> StatusRecord num)
    (w : World num) : World num :=
  match this_status w !! i with
  | Some l => {| heap := alter f l (heap w); this_status := this_status w;
                 promises := promises w |}
  | None => w
  end.

Definition settle (q : nat) (p : PromiseState) (w : World num) : World num :=
  match promises w !! q with
  | Some Pending => {| heap := heap w; this_status := this_status w;
                       promises := <[q := p]> (promises w) |}
  | _ => w
  end.

Definition step (w : World num) (e : Event num) : World num :=
  match e with
  | Call i q =>
      {| heap := heap w ++ [newStatus];
         this_status := <[i := length (heap w)]> (this_status w);
         promises := <[q := Pending]> (promises w) |}
  | Emit i q (EvLine l) => update_status i (fun st => onLine HB RU st l) w
  | Emit i q (EvError err) => settle q (Rejected err) w
  | Emit i q (EvClose clock) =>
      match this_status w !! i with
      | Some l =>
          settle q (Fulfilled l)
            (update_status i (onClose HB RU (currentDate i clock)) w)
      | None => w
      end
  end.

Definition run (w : World num) (tr : list (Event num)) : World num :=
  fold_left step tr w.

Definition noWorld : World num :=
  {| heap := []; this_status := ∅; promises := ∅ |}.

Definition outcome (w : World num) (q : nat) : Outcome num :=
  match promises w !! q with
  | None => NoPromise
  | Some Pending => StillPending
  | Some (Fulfilled l) =>
      match heap w !! l with
      | Some st => Delivered st
      | None => NoPromise
      end
  | Some (Rejected err) => Failed err
  end.

(** The events of one query that ends normally. *)
Definition query_ok (i q : nat) (lines : list string) (clock : num) : list (Event num) :=
  Call i q :: map (fun l => Emit i q (EvLine l)) lines ++ [Emit i q (EvClose clock)].

End Runtime.

(** ** Events, by the query and the instance they belong to *)

(** The event starts query [q] (creates its promise). *)
Definition starts {num : Type} (q : nat) (e : Event num) : bool :=
  match e with
  | Call _ q' => bool_decide (q' = q)
  | Emit _ _ _ => false
  end.

(** The event makes a handler of query [q] call [resolve] or [reject]. *)
Definition settles {num : Type} (q : nat) (e : Event num) : bool :=
  match e with
  | Emit _ q' (EvError _) | Emit _ q' (EvClose _) => bool_decide (q' = q)
  | _ => false
  end.

(** The event runs code of instance [a]. *)
Definition on_instance {num : Type} (a : nat) (e : Event num) : bool :=
  match e with
  | Call i _ | Emit i _ _ => bool_decide (i = a)
  end.

(** The event belongs to query [q]. *)
Definition of_query {num : Type} (q : nat) (e : Event num) : bool :=
  match e with
  | Call _ q' | Emit _ q' _ => bool_decide (q' = q)
  end.

(** ** The ETA estimate as section 4.3 words it *)

Section EtaSpec.
Context {num : Type} {N : JSNumber num}.
Variable RU : ReaderUtil num.

(** Successive differences between consecutive points: n-1 intervals for n
    points. *)
Fixpoint successive_differences (points : list num) : list num :=
  match points with
  | a :: (b :: _) as rest => nsub b a :: successive_differences rest
  | _ => []
  end.

(** The arithmetic mean: the sum, taken from 0 in list order, over the
    count. *)
Definition arithmetic_mean (xs : list num) : num :=
  ndiv (fold_left nadd xs (nlit 0)) (nlit (Z.of_nat (length xs))).

(** The timestamps of the estimator lines: characters 1..9 of each line,
    resolved by [getDateFromTime]. *)
Definition estimator_points (st : StatusRecord num) : list num :=
  map (fun est => getDateFromTime RU (String.substring 1 8 est)) (etaEstimators st).

(** [(avg * (numChapters - n) - elapsed) / 1000]. *)
Definition remaining_seconds (now : num) (st : StatusRecord num) : num :=
  let n := length (etaEstimators st) in
  let points := estimator_points st in
  let avg := arithmetic_mean (successive_differences points) in
  let elapsed := nsub now (List.last points NaN) in
  ndiv (nsub (nmul avg (nsub (numChapters st) (nlit (Z.of_nat n)))) elapsed)
       (nlit 1000).

(** The final record is in one of the two phases in which an ETA is
    extrapolated. *)
Definition ripping_phase (st : StatusRecord num) : Prop :=
  statusText st = RIPPING_ENCODING \/ statusText st = RIPPING_SUB_SCAN.

End EtaSpec.

(** ** Lines and records, as the claims classify them *)

Section LinePredicates.
Context {num : Type} {N : JSNumber num}.
Variable HB : HBStatus.
Variable RU : ReaderUtil num.

(** The classifier's verdict for the line is the status carried over from
    the previous line. *)
Definition carried_over (st : StatusRecord num) (line : string) : Prop :=
  lineToStatus RU line (statusText st) = statusText st.

(** The line matches neither indicator pattern. *)
Definition no_indicator (line : string) : Prop :=
  TITLE_NUMBER HB line = false /\ CHAPTER_PROGRESS HB line = false.

(** Folding the line runs [clearStats]: a scan verdict, or the
    encode-started marker under the verdict RIPPING. *)
Definition resets (st : StatusRecord num) (line : string) : bool :=
  match lineToStatus RU line (statusText st) with
  | SCANNING | SCAN_COMPLETE => true
  | RIPPING => lineContains RU line (ENCODE_STARTED HB)
  | _ => false
  end.

(** What [resolveStatus] leaves behind, by the status it wrote. *)
Definition settled (st : StatusRecord num) : Prop :=
  match statusText st with
  | SCANNING | SCAN_COMPLETE => st = set_statusText (statusText st) (clearStats st)
  | RIPPING_SUB_SCAN | RIPPING_ENCODING => eta st = "~"%string
  | RIPPING | QUEUE_COMPLETE => True
  end.

End LinePredicates.

(** ** Two worlds that agree on one query *)

Section Agreement.
Context {num : Type}.
(** The instance and the query under observation. *)
Variables a q : nat.

(** Every [this.status] points into the heap. *)
Definition valid (w : World num) : Prop :=
  forall j l, this_status w !! j = Some l -> l < length (heap w).

(** The promise of [q] in two worlds, read relative to the objects [l] and
    [l'] that [this.status] of [a] points to in each. *)
Definition same_promise (l l' : nat) (p p' : option PromiseState) : Prop :=
  match p, p' with
  | None, None => True
  | Some Pending, Some Pending => True
  | Some (Rejected e), Some (Rejected e') => e = e'
  | Some (Fulfilled m), Some (Fulfilled m') => m = l /\ m' = l'
  | _, _ => False
  end.

(** [w] is the world of the interleaved run, [w'] the world in which only
    the events of [q] have happened: the status object of [a] has the same
    content in both, no other instance points to it, and the promise of [q]
    is in the same state. *)
Definition alone_like (w w' : World num) : Prop :=
  valid w /\
  match this_status w !! a, this_status w' !! a with
  | None, None => promises w !! q = None /\ promises w' !! q = None
  | Some l, Some l' =>
      heap w !! l = heap w' !! l' /\
      (forall j, j <> a -> this_status w !! j <> Some l) /\
      same_promise l l' (promises w !! q) (promises w' !! q)
  | _, _ => False
  end.

End Agreement.

(** ** Instances for running the code on concrete logs *)

Module Exact.

(** Numbers as exact rationals in lowest terms; [None] stands for the
    values that are not finite.  On integers below 2^53, and on quotients
    that are such integers, these operations return what the IEEE-754
    operations return. *)
Definition qnum : Type := option Q.

Definition qlift2 (f : Q -> Q -> Q) (a b : qnum) : qnum :=
  match a, b with
  | Some x, Some y => Some (Qred (f x y))
  | _, _ => None
  end.

Definition qquot (a b : qnum) : qnum :=
  match a, b with
  | Some x, Some y => if Qeq_bool y 0 then None else Some (Qred (Qdiv x y))
  | _, _ => None
  end.

Definition digit_value (c : ascii) : option Z :=
  let n := nat_of_ascii c in
  if (48 <=? n) && (n <=? 57) then Some (Z.of_nat (n - 48)) else None.

Fixpoint digits_value (acc : Z) (s : string) : option Z :=
  match s with
  | EmptyString => Some acc
  | String c s' =>
      match digit_value c with
      | Some d => digits_value (10 * acc + d)%Z s'
      | None => None
      end
  end.

(** [Number(s)] on the strings the examples need: the empty string is 0, a
    run of decimal digits is its value, anything else is not a number. *)
Definition number_of_string (s : string) : qnum :=
  match digits_value 0 (js_trim s) with
  | Some z => Some (inject_Z z)
  | None => None
  end.

#[global] Instance qnum_JSNumber : JSNumber qnum := {|
  nlit := fun z => Some (inject_Z z);
  nadd := qlift2 Qplus;
  nsub := qlift2 Qminus;
  nmul := qlift2 Qmult;
  ndiv := qquot;
  NaN := None;
  Number_ := number_of_string
|}.

End Exact.

Module Sample.
Import Exact.

Definition contains (needle hay : string) : bool :=
  match String.index 0 needle hay with
  | Some _ => true
  | None => false
  end.

(** Modelled from the spec: [HBStatus.js] is not among the sources.  Section
    4.2 names an encode-started marker, a chapter-count indicator and a
    chapter-progress indicator without giving their text; the texts below
    are stand-ins used by the examples only, and every theorem about
    [LogReader] is stated for an arbitrary table. *)
Definition hbStatus : HBStatus := {|
  ENCODE_STARTED := "Starting encode";
  REVERSE_STATUS_LOOKUP := fun s =>
    match s with
    | SCANNING => "Scanning"
    | SCAN_COMPLETE => "Scan complete"
    | RIPPING => "Ripping"
    | RIPPING_SUB_SCAN => "Ripping (subtitle scan)"
    | RIPPING_ENCODING => "Ripping (encoding)"
    | QUEUE_COMPLETE => "Queue complete"
    end%string;
  TITLE_NUMBER := contains "chapters: 1 to ";
  CHAPTER_PROGRESS := contains "finished chapter"
|}.

Definition two_digits (s : string) : option Z :=
  match s with
  | String a (String b EmptyString) =>
      match digit_value a, digit_value b with
      | Some x, Some y => Some (10 * x + y)%Z
      | _, _ => None
      end
  | _ => None
  end.

(** Milliseconds of the wall-clock time [hh:mm:ss] within the day. *)
Definition dateFromTime (t : string) : qnum :=
  match two_digits (js_slice t 0 (Some 2%Z)), js_slice t 2 (Some 3%Z),
        two_digits (js_slice t 3 (Some 5%Z)), js_slice t 5 (Some 6%Z),
        two_digits (js_slice t 6 None) with
  | Some h, ":"%string, Some m, ":"%string, Some s =>
      Some (inject_Z (((h * 60 + m) * 60 + s) * 1000))
  | _, _, _, _, _ => None
  end.

Definition pad2 (z : Z) : string :=
  let s := DecimalString.NilZero.string_of_uint (N.to_uint (Z.to_N z)) in
  if (z <? 10)%Z then String "0" s else s.

Definition formatSeconds (t : qnum) : string :=
  match t with
  | None => "NaN:NaN:NaN"
  | Some q =>
      let z := Qfloor q in
      let a := Z.abs z in
      let body :=
        (pad2 (a / 3600) ++ ":" ++ pad2 ((a / 60) mod 60) ++ ":" ++ pad2 (a mod 60))%string in
      if (z <? 0)%Z then String "-" body else body
  end.

(** Modelled from the spec: [ReaderUtil.js] is not among the sources.
    Section 2 describes the classifier as a pure function of the line and
    the previous status, and the source's own comment says that the status
    is by default what it was on the last line; section 3 gives the ETA the
    shape [00:00:00].  The marker texts are stand-ins used by the examples
    only, and every theorem about [LogReader] is stated for an arbitrary
    [ReaderUtil]. *)
Definition readerUtil : ReaderUtil qnum := {|
  lineToStatus := fun line prev =>
    if contains "Scanning title" line then SCANNING
    else if contains "scan complete" line then SCAN_COMPLETE
    else if contains "Starting encode" line then RIPPING
    else if contains "subtitle scan pass" line then RIPPING_SUB_SCAN
    else if contains "encoding pass" line then RIPPING_ENCODING
    else if contains "Queue complete" line then QUEUE_COMPLETE
    else prev;
  lineContains := fun line s => contains s line;
  getEncodeName := fun line =>
    match String.index 0 "Starting encode: " line with
    | Some k => js_slice line (Z.of_nat k + 17) None
    | None => ""%string
    end;
  getDateFromTime := dateFromTime;
  secondsToFormattedTime := formatSeconds
|}.

(** No instance has a mocked time. *)
Definition noSeam : nat -> option qnum := fun _ => None.

End Sample.

(** ** Example records *)

Module Examples.
Import Exact Sample.

(** A record in the middle of an encode: two chapter-progress lines one
    minute apart, five chapters announced. *)
Definition midEncode : StatusRecord qnum :=
  {| currentEncode := "How to be Single"; startTime := "00:43:52"; endTime := "";
     statusText := RIPPING_ENCODING; status := None; numChapters := nlit 5;
     etaEstimators := ["[00:50:00] finished chapter 1"%string;
                       "[00:51:00] finished chapter 2"%string];
     eta := "~" |}.

(** The same encode with a single chapter-progress line so far. *)
Definition earlyEncode : StatusRecord qnum :=
  {| currentEncode := "How to be Single"; startTime := "00:43:52"; endTime := "";
     statusText := RIPPING_SUB_SCAN; status := None; numChapters := nlit 5;
     etaEstimators := ["[00:50:00] finished chapter 1"%string];
     eta := "~" |}.

(** A finished queue whose record still carries estimator lines. *)
Definition finished : StatusRecord qnum :=
  {| currentEncode := "Snatched"; startTime := "23:55:58"; endTime := "00:34:57";
     statusText := QUEUE_COMPLETE; status := None; numChapters := nlit 12;
     etaEstimators := ["[00:10:00] finished chapter 1"%string;
                       "[00:12:00] finished chapter 2"%string;
                       "[00:15:00] finished chapter 3"%string];
     eta := "~" |}.

(** Three minutes after the last sample of [midEncode]. *)
Definition now_0054 : qnum := dateFromTime "00:54:00".

(** Four minutes after it: later than the estimate allows for. *)
Definition now_0055 : qnum := dateFromTime "00:55:00".

End Examples.

(** ** Example logs *)

Module Logs.
Import Exact Sample.

(** A queue that ran to completion. *)
Definition completed : StatusRecord qnum :=
  replay hbStatus readerUtil
    ["[23:50:00] scan complete"%string;
     "[23:55:58] Starting encode: Snatched"%string;
     "[00:34:57] Queue complete"%string].

(** A log that stops during the initial scan. *)
Definition scanning : StatusRecord qnum :=
  replay hbStatus readerUtil ["[00:00:01] Scanning title 1 of 3"%string].

(** An encode that has started and finished one chapter; no pass line has
    been logged yet, so the status is still RIPPING. *)
Definition ripping : StatusRecord qnum :=
  replay hbStatus readerUtil
    ["[00:43:52] Starting encode: How to be Single"%string;
     "[00:50:00] finished chapter 1"%string].

(** Lines that match no status marker and no indicator. *)
Definition chatter : string := "[00:35:10] libhb: cleaning up".
Definition chatter' : string := "[00:50:10] sync: first pts is 0".

(** A chapter-count line. *)
Definition chapterCount : string := "  + chapters: 1 to 12".

(** A scan line and an encode-started line. *)
Definition scanLine : string := "[01:00:00] Scanning title 2 of 3".
Definition startLine : string := "[01:10:00] Starting encode: Snatched".

End Logs.

(** ** Example runs *)

Module Runs.
Import Exact Sample.

(** An encode in progress: one chapter of five finished. *)
Definition log : list string :=
  ["[00:43:52] Starting encode: How to be Single"%string;
   "[00:44:00] encoding pass"%string;
   "  + chapters: 1 to 5"%string;
   "[00:50:00] finished chapter 1"%string].

(** A log that stops during the initial scan. *)
Definition scanLog : list string := ["[00:00:01] Scanning title 1 of 3"%string].

Definition clock : qnum := dateFromTime "00:54:00".

Definition lineOf (i q : nat) (l : string) : Event qnum := Emit i q (EvLine l).

(** Two queries started back to back on the same instance 0, each replaying
    [log]; their line events alternate. *)
Definition overlapping : list (Event qnum) :=
  [Call 0 1; Call 0 2]
  ++ flat_map (fun l => [lineOf 0 1 l; lineOf 0 2 l]) log
  ++ [Emit 0 1 (EvClose clock); Emit 0 2 (EvClose clock)].

(** An earlier query 0 on instance 0, finished before query 1 is called. *)
Definition earlier : list (Event qnum) := query_ok 0 0 scanLog clock.

(** From the call of query 1 on instance 0, which replays [log]: meanwhile
    query 2 on instance 1 replays [scanLog]. *)
Definition twoReaders : list (Event qnum) :=
  [Call 1 2; lineOf 0 1 "[00:43:52] Starting encode: How to be Single";
   lineOf 1 2 "[00:00:01] Scanning title 1 of 3";
   lineOf 0 1 "[00:44:00] encoding pass"; lineOf 0 1 "  + chapters: 1 to 5";
   Emit 1 2 (EvClose clock);
   lineOf 0 1 "[00:50:00] finished chapter 1"; Emit 0 1 (EvClose clock)].

(** A query whose stream fails after two lines; a ['close'] follows. *)
Definition failing_mid : list (Event qnum) :=
  [lineOf 0 1 "[00:43:52] Starting encode: How to be Single";
   lineOf 0 1 "[00:44:00] encoding pass"].
Definition failing_rest : list (Event qnum) := [Emit 0 1 (EvClose clock)].

End Runs.

(** ** What a replay is made of *)

Section ReplayFacts.
Context {num : Type} {N : JSNumber num}.
Variable HB : HBStatus.
Variable RU : ReaderUtil num.

(** The classifier folded over the log, from the status of a fresh record. *)
Definition final_verdict (lines : list string) : STATUS :=
  fold_left (fun s line => lineToStatus RU line s) lines QUEUE_COMPLETE.

(** The line is one [addLineIfIsIndicator] pushes: it matches the
    chapter-progress pattern and not the chapter-count pattern, which is
    tested first. *)
Definition pushed (line : string) : bool :=
  CHAPTER_PROGRESS HB line && negb (TITLE_NUMBER HB line).

(** What [addLineIfIsIndicator] stores for a chapter-count line. *)
Definition chapters_of (line : string) : num :=
  Number_ (js_trim (js_slice line (-2) None)).

End ReplayFacts.

(** ** Status objects that no instance points to *)

(** No two instances share a status object. *)
Definition separate {num : Type} (w : World num) : Prop :=
  forall i j l, this_status w !! i = Some l -> this_status w !! j = Some l -> i = j.

(** The object [l] exists and is [this.status] of no instance. *)
Definition unpointed {num : Type} (w : World num) (l : nat) : Prop :=
  l < length (heap w) /\ forall j, this_status w !! j <> Some l.

(** ** More example records and runs *)

Module MoreExamples.
Import Exact Sample.

(** Three chapters of five finished, 40 and then 80 seconds apart. *)
Definition threeChapters : StatusRecord qnum :=
  {| currentEncode := "How to be Single"; startTime := "00:43:52"; endTime := "";
     statusText := RIPPING_ENCODING; status := None; numChapters := nlit 5;
     etaEstimators := ["[00:50:00] finished chapter 1"%string;
                       "[00:50:40] finished chapter 2"%string;
                       "[00:52:00] finished chapter 3"%string];
     eta := "~" |}.

Definition now_0053 : qnum := dateFromTime "00:53:00".

(** After query 0 on instance 0 has finished and query 1 has been called on
    the same instance: the events of query 1, a query on instance 1, and a
    stray late line of query 0. *)
Definition afterwards : list (Event qnum) :=
  [Call 1 2;
   Emit 0 1 (EvLine "[00:43:52] Starting encode: How to be Single");
   Emit 0 0 (EvLine "[00:44:00] encoding pass");
   Emit 1 2 (EvLine "[00:00:01] Scanning title 1 of 3");
   Emit 0 1 (EvClose Runs.clock)].

End MoreExamples.

(** * Lemmas *)

(** ** The loops of calcEta against the wording of section 4.3 *)

Section EtaLemmas.
Context {num : Type} {N : JSNumber num}.
Variable RU : ReaderUtil num.

Lemma js_slice_1_9 (s : string) :
  js_slice s 1 (Some 9%Z) = String.substring 1 8 s.
Proof.
  unfold js_slice. cbn zeta.
  destruct s as [|c s]; [reflexivity|].
  set (len := Z.of_nat (String.length (String c s))).
  assert (Hlen : (1 <= len)%Z) by (subst len; cbn [String.length]; lia).
  change (1 <? 0)%Z with false. change (9 <? 0)%Z with false. cbn iota.
  replace (Z.to_nat (Z.min 1 len)) with 1 by lia.
  destruct (Z.le_gt_cases 9 len) as [H9|H9].
  - replace (Z.to_nat (Z.max (Z.min 9 len - Z.min 1 len) 0)) with 8 by lia.
    reflexivity.
  - replace (Z.to_nat (Z.max (Z.min 9 len - Z.min 1 len) 0))
      with (String.length s) by (subst len; cbn [String.length] in *; lia).
    cbn [String.substring].
    assert (Hs : String.length s <= 8) by (subst len; cbn [String.length] in *; lia).
    clear -Hs. revert Hs. generalize 8.
    induction s as [|d s IH]; intros n Hn.
    + destruct n; reflexivity.
    + destruct n as [|n]; [cbn in Hn; lia|].
      cbn [String.length String.substring]. f_equal. apply IH. cbn in Hn. lia.
Qed.

Lemma etaDates_points (st : StatusRecord num) :
  etaDates RU st = estimator_points RU st.
Proof.
  unfold etaDates, estimator_points. apply map_ext. intros est.
  now rewrite js_slice_1_9.
Qed.

Lemma js_index_nat (a : list num) (i : nat) :
  js_index a (Z.of_nat i) = default NaN (a !! i).
Proof.
  unfold js_index. destruct (Z.ltb_spec (Z.of_nat i) 0); [lia|].
  now rewrite Nat2Z.id.
Qed.

Lemma js_index_pred (a : list num) (i : nat) :
  js_index a (Z.of_nat (S i) - 1) = default NaN (a !! i).
Proof.
  replace (Z.of_nat (S i) - 1)%Z with (Z.of_nat i) by lia. apply js_index_nat.
Qed.

Lemma dateDiffs_cons (a b : num) (l : list num) :
  dateDiffs (a :: b :: l) = nsub b a :: dateDiffs (b :: l).
Proof.
  unfold dateDiffs. cbn [length]. rewrite !Nat.sub_succ, !Nat.sub_0_r.
  cbn [seq map]. f_equal.
  rewrite <- seq_shift, map_map. apply map_ext_in. intros i Hi.
  rewrite !js_index_nat, !js_index_pred.
  apply in_seq in Hi. destruct i as [|i]; [lia|].
  rewrite js_index_pred. reflexivity.
Qed.

Lemma dateDiffs_spec (dates : list num) :
  dateDiffs dates = successive_differences dates.
Proof.
  induction dates as [|a [|b l] IH]; try reflexivity.
  rewrite dateDiffs_cons, IH. reflexivity.
Qed.

Lemma successive_differences_length (points : list num) :
  length (successive_differences points) = length points - 1.
Proof.
  induction points as [|a [|b l] IH]; try reflexivity.
  cbn [successive_differences length] in *. lia.
Qed.

Lemma sumDiffs_from (pre l : list num) (acc : num) :
  fold_left (fun sum i => nadd sum (js_index (pre ++ l) (Z.of_nat i)))
            (seq (length pre) (length l)) acc
  = fold_left nadd l acc.
Proof.
  revert pre acc. induction l as [|x l IH]; intros pre acc; [reflexivity|].
  cbn [length seq fold_left].
  rewrite js_index_nat, list_lookup_middle by reflexivity. cbn [default].
  specialize (IH (pre ++ [x]) (nadd acc x)).
  rewrite <- app_assoc, length_app in IH. cbn [length app] in IH.
  rewrite Nat.add_1_r in IH. exact IH.
Qed.

Lemma sumDiffs_spec (diffs : list num) :
  sumDiffs diffs = fold_left nadd diffs (nlit 0).
Proof. exact (sumDiffs_from [] diffs (nlit 0)). Qed.

Lemma js_index_last (a : list num) :
  a <> [] -> js_index a (Z.of_nat (length a) - 1) = List.last a NaN.
Proof.
  intros Ha. destruct (exists_last Ha) as (l & x & ->).
  rewrite length_app. cbn [length].
  replace (Z.of_nat (length l + 1) - 1)%Z with (Z.of_nat (length l)) by lia.
  rewrite js_index_nat, list_lookup_middle by reflexivity.
  now rewrite last_last.
Qed.

End EtaLemmas.

(** ** calcEta *)

Section CalcEta.
Context {num : Type} {N : JSNumber num}.
Variable HB : HBStatus.
Variable RU : ReaderUtil num.

Lemma onClose_eta (now : num) (st : StatusRecord num) :
  eta (onClose HB RU now st) = calcEta RU now st.
Proof. reflexivity. Qed.

Lemma calcEtaTraced_ripping (now : num) (st : StatusRecord num) :
  ripping_phase st ->
  calcEtaTraced RU now st =
    if length (etaEstimators st) <? 2 then (ExitTooFew, "~"%string)
    else if length (dateDiffs (etaDates RU st)) =? 0
         then (ExitNoDiffs, "00:00:00"%string)
         else (ExitComputed,
               secondsToFormattedTime RU
                 (ndiv (nsub (nmul (ndiv (sumDiffs (dateDiffs (etaDates RU st)))
                                         (nlit (Z.of_nat (length (dateDiffs (etaDates RU st))))))
                                   (nsub (numChapters st)
                                         (nlit (Z.of_nat (length (etaEstimators st))))))
                             (nsub now (js_index (etaDates RU st)
                                          (Z.of_nat (length (etaDates RU st)) - 1))))
                       (nlit 1000))).
Proof.
  intros [H|H]; unfold calcEtaTraced; rewrite H; reflexivity.
Qed.

Lemma dateDiffs_length (st : StatusRecord num) :
  length (dateDiffs (etaDates RU st)) = length (etaEstimators st) - 1.
Proof.
  rewrite dateDiffs_spec, successive_differences_length.
  unfold etaDates. now rewrite length_map.
Qed.

Lemma calcEtaTraced_computed (now : num) (st : StatusRecord num) :
  ripping_phase st ->
  2 <= length (etaEstimators st) ->
  calcEtaTraced RU now st =
    (ExitComputed, secondsToFormattedTime RU (remaining_seconds RU now st)).
Proof.
  intros Hphase Hlen. rewrite (calcEtaTraced_ripping now st Hphase).
  destruct (Nat.ltb_spec (length (etaEstimators st)) 2) as [Hlt|_]; [lia|].
  pose proof (dateDiffs_length st) as Hd.
  destruct (Nat.eqb_spec (length (dateDiffs (etaDates RU st))) 0) as [H0|_]; [lia|].
  unfold remaining_seconds, arithmetic_mean.
  rewrite sumDiffs_spec, js_index_last.
  - rewrite !dateDiffs_spec, !etaDates_points. reflexivity.
  - unfold etaDates. intros Hnil. apply (f_equal length) in Hnil.
    rewrite length_map in Hnil. cbn in Hnil. lia.
Qed.

End CalcEta.

(** ** The per-line fold *)

Section LineFold.
Context {num : Type} {N : JSNumber num}.
Variable HB : HBStatus.
Variable RU : ReaderUtil num.

Lemma addLineIfIsIndicator_statusText (st : StatusRecord num) (line : string) :
  statusText (addLineIfIsIndicator HB st line) = statusText st.
Proof.
  unfold addLineIfIsIndicator.
  destruct (TITLE_NUMBER HB line); [reflexivity|].
  destruct (CHAPTER_PROGRESS HB line); reflexivity.
Qed.

Lemma addLineIfIsIndicator_inert (st : StatusRecord num) (line : string) :
  no_indicator HB line -> addLineIfIsIndicator HB st line = st.
Proof.
  intros [Ht Hc]. unfold addLineIfIsIndicator. now rewrite Ht, Hc.
Qed.

Lemma resolveStatus_statusText (st : StatusRecord num) (line : string) :
  statusText (resolveStatus HB RU st line) = lineToStatus RU line (statusText st).
Proof. reflexivity. Qed.

Lemma resolveStatus_settled (st : StatusRecord num) (line : string) :
  settled (resolveStatus HB RU st line).
Proof.
  unfold settled. rewrite resolveStatus_statusText.
  unfold resolveStatus.
  destruct (lineToStatus RU line (statusText st)); try exact I; reflexivity.
Qed.

Lemma replay_snoc (lines : list string) (line : string) :
  replay HB RU (lines ++ [line]) = onLine HB RU (replay HB RU lines) line.
Proof. unfold replay. now rewrite fold_left_app. Qed.

Lemma replay_settled (lines : list string) : settled (replay HB RU lines).
Proof.
  destruct lines as [|l lines _] using rev_ind; [exact I|].
  rewrite replay_snoc. apply resolveStatus_settled.
Qed.

Lemma set_statusText_id (st : StatusRecord num) :
  set_statusText (statusText st) st = st.
Proof. destruct st; reflexivity. Qed.

Lemma set_eta_id (st : StatusRecord num) : set_eta (eta st) st = st.
Proof. destruct st; reflexivity. Qed.

(** The effect of [resolveStatus] on a line whose verdict is carried over
    and which is not the encode-started marker. *)
Lemma resolveStatus_carried_over (st : StatusRecord num) (line : string) :
  carried_over RU st line ->
  lineContains RU line (ENCODE_STARTED HB) = false ->
  resolveStatus HB RU st line =
    match statusText st with
    | SCANNING | SCAN_COMPLETE => set_statusText (statusText st) (clearStats st)
    | RIPPING => st
    | RIPPING_SUB_SCAN | RIPPING_ENCODING => set_eta "~" st
    | QUEUE_COMPLETE => set_endTime (js_slice line 1 (Some 9%Z)) st
    end.
Proof.
  intros Hc Hm. unfold resolveStatus. rewrite Hc, Hm. cbn [negb].
  destruct st as [ce stt et tx lb nc es e]; cbn in *.
  destruct tx; reflexivity.
Qed.

Lemma commute_without_indicator (st : StatusRecord num) (line : string) :
  no_indicator HB line ->
  resolveStatus HB RU (addLineIfIsIndicator HB st line) line
  = addLineIfIsIndicator HB (resolveStatus HB RU st line) line.
Proof. intros H. now rewrite !addLineIfIsIndicator_inert. Qed.

Lemma commute_without_reset (st : StatusRecord num) (line : string) :
  resets HB RU st line = false ->
  resolveStatus HB RU (addLineIfIsIndicator HB st line) line
  = addLineIfIsIndicator HB (resolveStatus HB RU st line) line.
Proof.
  unfold resets, resolveStatus. rewrite addLineIfIsIndicator_statusText.
  unfold addLineIfIsIndicator.
  destruct st as [ce stt et tx lb nc es e]; cbn.
  destruct (lineToStatus RU line tx); intros Hr; try discriminate;
    try rewrite Hr; cbn;
    destruct (TITLE_NUMBER HB line); try reflexivity;
    destruct (CHAPTER_PROGRESS HB line); reflexivity.
Qed.

End LineFold.

(** ** Promises and the heap of status objects *)

(** Present the rest of a trace as a [run] again after one [step] has been
    exposed. *)
Ltac refold_run :=
  cbn [run fold_left];
  repeat match goal with
         | |- context [fold_left (step ?HB ?RU ?seam) ?t ?w0] =>
             change (fold_left (step HB RU seam) t w0) with (run HB RU seam w0 t)
         end.

Section RuntimeProps.
Context {num : Type} {N : JSNumber num}.
Variable HB : HBStatus.
Variable RU : ReaderUtil num.
Variable seam : nat -> option num.

Abbreviation step' := (step HB RU seam).
Abbreviation run' := (run HB RU seam).

Lemma run_app (w : World num) (t1 t2 : list (Event num)) :
  run' w (t1 ++ t2) = run' (run' w t1) t2.
Proof. unfold run. apply fold_left_app. Qed.

Lemma update_status_promises (i : nat) f (w : World num) :
  promises (update_status i f w) = promises w.
Proof. unfold update_status. destruct (this_status w !! i); reflexivity. Qed.

Lemma update_status_this (i : nat) f (w : World num) :
  this_status (update_status i f w) = this_status w.
Proof. unfold update_status. destruct (this_status w !! i); reflexivity. Qed.

Lemma settle_heap (q : nat) p (w : World num) : heap (settle q p w) = heap w.
Proof. unfold settle. destruct (promises w !! q) as [[]|]; reflexivity. Qed.

Lemma settle_this (q : nat) p (w : World num) :
  this_status (settle q p w) = this_status w.
Proof. unfold settle. destruct (promises w !! q) as [[]|]; reflexivity. Qed.

Lemma settle_other (q q' : nat) p (w : World num) :
  q' <> q -> promises (settle q' p w) !! q = promises w !! q.
Proof.
  intros Hne. unfold settle. destruct (promises w !! q') as [[]|]; try reflexivity.
  cbn. now rewrite lookup_insert_ne.
Qed.

Lemma settle_same (q : nat) p (w : World num) :
  promises (settle q p w) !! q =
    match promises w !! q with
    | Some Pending => Some p
    | other => other
    end.
Proof.
  unfold settle. destruct (promises w !! q) as [[]|] eqn:E; try (now rewrite E).
  cbn. now rewrite lookup_insert_eq.
Qed.

(** An event that neither starts nor settles [q] leaves its promise alone. *)
Lemma step_promise_quiet (q : nat) (w : World num) (e : Event num) :
  starts q e = false -> settles q e = false ->
  promises (step' w e) !! q = promises w !! q.
Proof.
  destruct e as [i q'|i q' [l|err|clock]]; cbn; intros Hs Hq.
  - apply bool_decide_eq_false in Hs. now rewrite lookup_insert_ne.
  - now rewrite update_status_promises.
  - apply bool_decide_eq_false in Hq. now apply settle_other.
  - apply bool_decide_eq_false in Hq.
    destruct (this_status w !! i); [|reflexivity].
    rewrite settle_other by assumption. now rewrite update_status_promises.
Qed.

(** A rejected promise stays rejected as long as the query is not started
    anew. *)
Lemma step_promise_rejected (q : nat) (err : string) (w : World num) (e : Event num) :
  starts q e = false ->
  promises w !! q = Some (Rejected err) ->
  promises (step' w e) !! q = Some (Rejected err).
Proof.
  intros Hs Hp. destruct (settles q e) eqn:Hq.
  - destruct e as [i q'|i q' [l|err'|clock]]; cbn in *; try discriminate;
      apply bool_decide_eq_true in Hq; subst q'.
    + now rewrite settle_same, Hp.
    + destruct (this_status w !! i); [|exact Hp].
      now rewrite settle_same, update_status_promises, Hp.
  - now rewrite step_promise_quiet.
Qed.

Lemma run_promise_quiet (q : nat) (tr : list (Event num)) (w : World num) :
  forallb (fun e => negb (starts q e) && negb (settles q e)) tr = true ->
  promises (run' w tr) !! q = promises w !! q.
Proof.
  revert w. induction tr as [|e tr IH]; intros w H; [reflexivity|].
  cbn in H. apply andb_prop in H as [He Htr]. apply andb_prop in He as [H1 H2].
  apply negb_true_iff in H1, H2.
  refold_run. rewrite IH by exact Htr. now apply step_promise_quiet.
Qed.

Lemma run_promise_rejected (q : nat) (err : string) (tr : list (Event num))
    (w : World num) :
  forallb (fun e => negb (starts q e)) tr = true ->
  promises w !! q = Some (Rejected err) ->
  promises (run' w tr) !! q = Some (Rejected err).
Proof.
  revert w. induction tr as [|e tr IH]; intros w H Hp; [exact Hp|].
  cbn in H. apply andb_prop in H as [He Htr]. apply negb_true_iff in He.
  refold_run. apply IH; [exact Htr|]. now apply step_promise_rejected.
Qed.

Lemma forallb_take {A : Type} (p : A -> bool) (n : nat) (l : list A) :
  forallb p l = true -> forallb p (take n l) = true.
Proof.
  revert n. induction l as [|x l IH]; intros [|n] H; try reflexivity.
  cbn in *. apply andb_prop in H as [Hx Hl]. rewrite Hx. cbn. now apply IH.
Qed.

(** The promise of a query started by [Call i q] whose interface emits
    ['error'] before any ['close']: at every moment from the call on it is
    pending or rejected with that error. *)
Lemma failing_query_prefix (w : World num) (i q : nat) (mid rest : list (Event num))
    (err : string) (n : nat) :
  forallb (fun e => negb (starts q e) && negb (settles q e)) mid = true ->
  forallb (fun e => negb (starts q e)) rest = true ->
  let p := promises
             (run' w (Call i q :: take n (mid ++ Emit i q (EvError err) :: rest))) !! q in
  p = Some Pending \/ p = Some (Rejected err).
Proof.
  intros Hmid Hrest. cbn zeta. refold_run.
  set (w1 := step' w (Call i q)).
  assert (Hw1 : promises w1 !! q = Some Pending)
    by (subst w1; cbn; apply lookup_insert_eq).
  clearbody w1. rewrite take_app.
  destruct (decide (n <= length mid)) as [Hn|Hn].
  - left. replace (n - length mid) with 0 by lia. rewrite take_0, app_nil_r.
    rewrite run_promise_quiet by (now apply forallb_take). exact Hw1.
  - rewrite take_ge by lia.
    destruct (n - length mid) as [|k] eqn:Hk; [lia|]. cbn [take].
    right. rewrite run_app. refold_run.
    apply run_promise_rejected; [now apply forallb_take|].
    cbn. rewrite settle_same, run_promise_quiet by exact Hmid. now rewrite Hw1.
Qed.

End RuntimeProps.

(** ** Queries on different instances *)

Section Independence.
Context {num : Type} {N : JSNumber num}.
Variable HB : HBStatus.
Variable RU : ReaderUtil num.
Variable seam : nat -> option num.
(** The instance and the query under observation. *)
Variables a q : nat.

Abbreviation step' := (step HB RU seam).
Abbreviation run' := (run HB RU seam).

Lemma update_status_heap (i : nat) f (w : World num) :
  heap (update_status i f w) =
    match this_status w !! i with
    | Some l => alter f l (heap w)
    | None => heap w
    end.
Proof. unfold update_status. destruct (this_status w !! i); reflexivity. Qed.

Lemma valid_step (w : World num) (e : Event num) : valid w -> valid (step' w e).
Proof.
  intros Hv j l. destruct e as [i q'|i q' [ln|err|clock]]; cbn.
  - rewrite length_app. cbn. destruct (decide (i = j)) as [->|Hij].
    + rewrite lookup_insert_eq. intros [= <-]. lia.
    + rewrite lookup_insert_ne by exact Hij. intros H. apply Hv in H. lia.
  - rewrite update_status_this, update_status_heap. intros H. apply Hv in H.
    destruct (this_status w !! i); [now rewrite length_alter | exact H].
  - rewrite settle_this, settle_heap. apply Hv.
  - destruct (this_status w !! i) as [l0|] eqn:E; [|apply Hv].
    rewrite settle_this, settle_heap, update_status_this, update_status_heap, E.
    rewrite length_alter. apply Hv.
Qed.

Lemma same_promise_settle (l l' : nat) (p : PromiseState) (w w' : World num) :
  same_promise l l' (promises w !! q) (promises w' !! q) ->
  (forall m, p = Fulfilled m -> False) ->
  same_promise l l' (promises (settle q p w) !! q) (promises (settle q p w') !! q).
Proof.
  intros H Hp. rewrite !settle_same.
  destruct (promises w !! q) as [[]|], (promises w' !! q) as [[]|];
    cbn in *; try contradiction; try exact H.
  destruct p; try exact I; try reflexivity. exfalso. now apply (Hp obj).
Qed.

Lemma valid_run (tr : list (Event num)) (w : World num) :
  valid w -> valid (run' w tr).
Proof.
  revert w. induction tr as [|e tr IH]; intros w Hv; [exact Hv|].
  refold_run. apply IH. now apply valid_step.
Qed.

Lemma valid_noWorld : valid (noWorld (num := num)).
Proof. intros j l. cbn. now rewrite lookup_empty. Qed.

(** The call of the observed query makes the two worlds agree, whatever
    happened before it: the record is fresh and the promise is new. *)
Lemma alone_like_call (w w' : World num) :
  valid w -> alone_like a q (step' w (Call a q)) (step' w' (Call a q)).
Proof.
  intros Hv. split; [now apply valid_step|].
  cbn. rewrite !lookup_insert_eq.
  rewrite !(list_lookup_middle _ []) by reflexivity.
  split; [reflexivity|]. split; [|exact I].
  intros j Hj. rewrite lookup_insert_ne by congruence.
  intros Hl. apply Hv in Hl. lia.
Qed.

(** An event of the observed query, on the observed instance, happens in
    both worlds. *)
Lemma alone_like_own (w w' : World num) (e : Event num) :
  on_instance a e = true -> of_query q e = true ->
  alone_like a q w w' -> alone_like a q (step' w e) (step' w' e).
Proof.
  intros Ha Hq [Hv H].
  destruct e as [i q'|i q' ev]; cbn in Ha, Hq;
    apply bool_decide_eq_true in Ha, Hq; subst i q';
    [now apply alone_like_call|].
  split; [now apply valid_step|].
  destruct ev as [ln|err|clock]; cbn.
  - (* 'line' *)
    rewrite !update_status_this, !update_status_promises, !update_status_heap.
    destruct (this_status w !! a) as [l|], (this_status w' !! a) as [l'|];
      try contradiction; [|exact H].
    destruct H as (Hc & Hj & Hp).
    rewrite !list_lookup_alter_eq, Hc. auto.
  - (* 'error' *)
    rewrite !settle_this, !settle_heap.
    destruct (this_status w !! a) as [l|], (this_status w' !! a) as [l'|];
      try contradiction.
    + destruct H as (Hc & Hj & Hp). repeat split; try assumption.
      apply same_promise_settle; [exact Hp | discriminate].
    + destruct H as [H1 H2]. now rewrite !settle_same, H1, H2.
  - (* 'close' *)
    destruct (this_status w !! a) as [l|] eqn:E,
             (this_status w' !! a) as [l'|] eqn:E'; try contradiction.
    + rewrite !settle_this, !settle_heap, !update_status_this,
        !update_status_heap, E, E'.
      destruct H as (Hc & Hj & Hp).
      rewrite !list_lookup_alter_eq, Hc.
      split; [reflexivity|]. split; [exact Hj|].
      rewrite !settle_same, !update_status_promises.
      destruct (promises w !! q) as [[]|], (promises w' !! q) as [[]|];
        cbn in *; try contradiction; auto.
    + rewrite E, E'. exact H.
Qed.

(** An event of another query, on another instance, happens in the
    interleaved world only. *)
Lemma alone_like_other (w w' : World num) (e : Event num) :
  on_instance a e = false -> of_query q e = false ->
  alone_like a q w w' -> alone_like a q (step' w e) w'.
Proof.
  intros Ha Hq [Hv H]. split; [now apply valid_step|].
  destruct e as [i q'|i q' ev]; cbn in Ha, Hq;
    apply bool_decide_eq_false in Ha, Hq.
  - (* Call i q' *)
    cbn. rewrite !lookup_insert_ne by congruence.
    destruct (this_status w !! a) as [l|] eqn:E, (this_status w' !! a) as [l'|];
      try contradiction; [|exact H].
    destruct H as (Hc & Hj & Hp). pose proof (Hv _ _ E) as Hl.
    rewrite lookup_app_l by exact Hl. split; [exact Hc|]. split; [|exact Hp].
    intros j Hja. destruct (decide (i = j)) as [->|Hij].
    + rewrite lookup_insert_eq. intros [= Hlen]. lia.
    + rewrite lookup_insert_ne by exact Hij. now apply Hj.
  - assert (Hheap : forall f l, this_status w !! a = Some l ->
              (forall j, j <> a -> this_status w !! j <> Some l) ->
              heap (update_status i f w) !! l = heap w !! l).
    { intros f l E Hj. rewrite update_status_heap.
      destruct (this_status w !! i) as [li|] eqn:Ei; [|reflexivity].
      apply list_lookup_alter_ne. intros ->. now apply (Hj i). }
    destruct ev as [ln|err|clock]; cbn.
    + rewrite update_status_this, update_status_promises.
      destruct (this_status w !! a) as [l|] eqn:E, (this_status w' !! a) as [l'|];
        try contradiction; [|exact H].
      destruct H as (Hc & Hj & Hp). now rewrite Hheap.
    + rewrite settle_this, settle_heap, settle_other by exact Hq. exact H.
    + destruct (this_status w !! i) as [li|] eqn:Ei; [|exact H].
      rewrite settle_this, settle_heap, settle_other by exact Hq.
      rewrite update_status_this, update_status_promises.
      destruct (this_status w !! a) as [l|] eqn:E, (this_status w' !! a) as [l'|];
        try contradiction; [|exact H].
      destruct H as (Hc & Hj & Hp). now rewrite Hheap.
Qed.

Lemma alone_like_run (tr : list (Event num)) (w w' : World num) :
  forallb (fun e => eqb (on_instance a e) (of_query q e)) tr = true ->
  alone_like a q w w' ->
  alone_like a q (run' w tr) (run' w' (List.filter (of_query q) tr)).
Proof.
  revert w w'. induction tr as [|e tr IH]; intros w w' H Hs; [exact Hs|].
  cbn in H. apply andb_prop in H as [He Htr]. apply eqb_prop in He.
  cbn [List.filter run fold_left].
  destruct (of_query q e) eqn:Hq.
  - cbn [fold_left]. apply IH; [exact Htr|]. now apply alone_like_own.
  - apply IH; [exact Htr|]. now apply alone_like_other.
Qed.

Lemma alone_like_outcome (w w' : World num) :
  alone_like a q w w' ->
  outcome w q = outcome w' q.
Proof.
  intros [_ H]. unfold outcome.
  destruct (this_status w !! a) as [l|], (this_status w' !! a) as [l'|];
    try contradiction.
  - destruct H as (Hc & _ & Hp).
    destruct (promises w !! q) as [[]|], (promises w' !! q) as [[]|];
      cbn in Hp; try contradiction; try reflexivity.
    + destruct Hp as [-> ->]. now rewrite Hc.
    + now subst.
  - destruct H as [-> ->]. reflexivity.
Qed.

End Independence.

(** ** One query alone *)

Section Alone.
Context {num : Type} {N : JSNumber num}.
Variable HB : HBStatus.
Variable RU : ReaderUtil num.
Variable seam : nat -> option num.

Lemma run_lines (i q : nat) (lines : list string) (w : World num)
    (l : nat) (st : StatusRecord num) :
  this_status w !! i = Some l ->
  heap w !! l = Some st ->
  let w2 := run HB RU seam w (map (fun ln => Emit i q (EvLine ln)) lines) in
  this_status w2 = this_status w /\ promises w2 = promises w /\
  heap w2 !! l = Some (fold_left (onLine HB RU) lines st).
Proof.
  revert w st. induction lines as [|ln lines IH]; intros w st Hi Hl; cbn zeta.
  - cbn. auto.
  - cbn [map]. refold_run.
    set (w1 := step HB RU seam w (Emit i q (EvLine ln))).
    assert (H1 : this_status w1 = this_status w /\ promises w1 = promises w /\
                 heap w1 !! l = Some (onLine HB RU st ln)).
    { subst w1. cbn. rewrite update_status_this, update_status_promises.
      unfold update_status. rewrite Hi. cbn.
      now rewrite list_lookup_alter_eq, Hl. }
    destruct H1 as (Ht & Hp & Hh).
    destruct (IH w1 (onLine HB RU st ln)) as (Ht2 & Hp2 & Hh2);
      [now rewrite Ht | exact Hh |].
    cbn zeta in *. rewrite Ht2, Hp2, Ht, Hp. auto.
Qed.

(** A query that is the only activity resolves with the record of the whole
    replay, labelled and with its ETA. *)
Lemma query_ok_outcome (i q : nat) (lines : list string) (clock : num) :
  outcome (run HB RU seam noWorld (query_ok i q lines clock)) q
  = Delivered (onClose HB RU (currentDate seam i clock) (replay HB RU lines)).
Proof.
  unfold query_ok. refold_run.
  rewrite run_app.
  set (w1 := step HB RU seam noWorld (Call i q)).
  destruct (run_lines i q lines w1 0 newStatus) as (Ht & Hp & Hh).
  { subst w1. cbn. apply lookup_insert_eq. }
  { reflexivity. }
  cbn zeta in *.
  set (w2 := run HB RU seam w1 _) in *.
  assert (Hi : this_status w2 !! i = Some 0)
    by (rewrite Ht; subst w1; cbn; apply lookup_insert_eq).
  assert (Hq : promises w2 !! q = Some Pending)
    by (rewrite Hp; subst w1; cbn; apply lookup_insert_eq).
  clearbody w2. cbn [run fold_left step]. rewrite Hi.
  unfold outcome. rewrite settle_same, update_status_promises, Hq.
  rewrite settle_heap. unfold update_status. rewrite Hi. cbn [heap].
  rewrite list_lookup_alter_eq, Hh. reflexivity.
Qed.

End Alone.

(** * The claims *)

(** ** Claims about calcEta *)

(** C5: a final record whose statusText is QUEUE_COMPLETE gets the ETA
    "00:00:00", whatever etaEstimators, numChapters and the other fields
    hold; the eta written by the close handler is that value. *)
Theorem calcEta_queue_complete :
  forall (num : Type) (N : JSNumber num) (HB : HBStatus) (RU : ReaderUtil num)
         (now : num) (st : StatusRecord num),
    statusText st = QUEUE_COMPLETE ->
    calcEta RU now st = "00:00:00"%string /\
    eta (onClose HB RU now st) = "00:00:00"%string.
Proof.
  intros num N HB RU now st H. rewrite onClose_eta.
  unfold calcEta, calcEtaTraced. rewrite H. split; reflexivity.
Qed.

Lemma calcEta_queue_complete_witness :
  statusText Examples.finished = QUEUE_COMPLETE /\
  length (etaEstimators Examples.finished) = 3 /\
  calcEta Sample.readerUtil Examples.now_0054 Examples.finished = "00:00:00"%string.
Proof.
  split; [reflexivity|]. split; [reflexivity|].
  apply (calcEta_queue_complete _ _ Sample.hbStatus Sample.readerUtil
           Examples.now_0054 Examples.finished).
  reflexivity.
Defined.

(** C4: a final record in the phase RIPPING_ENCODING or RIPPING_SUB_SCAN with
    fewer than two estimator lines gets the ETA "~". *)
Theorem calcEta_too_few_estimators :
  forall (num : Type) (N : JSNumber num) (HB : HBStatus) (RU : ReaderUtil num)
         (now : num) (st : StatusRecord num),
    ripping_phase st ->
    length (etaEstimators st) < 2 ->
    calcEta RU now st = "~"%string /\ eta (onClose HB RU now st) = "~"%string.
Proof.
  intros num N HB RU now st Hphase Hlen. rewrite onClose_eta.
  unfold calcEta. rewrite (calcEtaTraced_ripping RU now st Hphase).
  destruct (Nat.ltb_spec (length (etaEstimators st)) 2); [split; reflexivity | lia].
Qed.

Lemma calcEta_too_few_estimators_witness :
  calcEta Sample.readerUtil Examples.now_0054 Examples.earlyEncode = "~"%string.
Proof.
  apply (calcEta_too_few_estimators _ _ Sample.hbStatus Sample.readerUtil
           Examples.now_0054 Examples.earlyEncode).
  - right. reflexivity.
  - cbn. lia.
Defined.

(** C10: when calcEta reaches the interval computation (phase
    RIPPING_ENCODING or RIPPING_SUB_SCAN, at least two estimator lines), the
    list dateDiffs has etaEstimators.length - 1 >= 1 entries, and calcEta
    leaves through the computed return, not through the zero-differences
    fallback of line 150. *)
Theorem calcEta_fallback_unreachable :
  forall (num : Type) (N : JSNumber num) (RU : ReaderUtil num)
         (now : num) (st : StatusRecord num),
    ripping_phase st ->
    2 <= length (etaEstimators st) ->
    length (dateDiffs (etaDates RU st)) = length (etaEstimators st) - 1 /\
    1 <= length (dateDiffs (etaDates RU st)) /\
    fst (calcEtaTraced RU now st) = ExitComputed /\
    fst (calcEtaTraced RU now st) <> ExitNoDiffs.
Proof.
  intros num N RU now st Hphase Hlen.
  pose proof (dateDiffs_length RU st) as Hd.
  rewrite (calcEtaTraced_computed RU now st Hphase Hlen). cbn [fst].
  repeat split; [exact Hd | lia | discriminate].
Qed.

Lemma calcEta_fallback_unreachable_witness :
  length (dateDiffs (etaDates Sample.readerUtil Examples.midEncode)) = 1 /\
  fst (calcEtaTraced Sample.readerUtil Examples.now_0054 Examples.midEncode)
    = ExitComputed.
Proof.
  destruct (calcEta_fallback_unreachable _ _ Sample.readerUtil
              Examples.now_0054 Examples.midEncode) as (H1 & _ & H3 & _).
  - left. reflexivity.
  - cbn. lia.
  - split; [exact H1 | exact H3].
Defined.

(** C3: for a final record in the phase RIPPING_ENCODING or RIPPING_SUB_SCAN
    with n >= 2 estimator lines, the ETA is the formatter applied to
    (avg * (numChapters - n) - elapsed) / 1000, where avg is the arithmetic
    mean of the n-1 successive differences of the timestamps taken from
    characters 1..9 of the estimator lines and elapsed runs from the last
    timestamp to "now"; the value goes to the formatter as it is, negative or
    not.  With exactly two estimators one minute apart, numChapters = 5 and
    "now" three minutes after the last sample, the value is 0 seconds and the
    ETA is what the formatter gives for 0, "00:00:00". *)
Theorem calcEta_remaining_seconds :
  (forall (num : Type) (N : JSNumber num) (RU : ReaderUtil num)
          (now : num) (st : StatusRecord num),
      ripping_phase st ->
      2 <= length (etaEstimators st) ->
      calcEta RU now st = secondsToFormattedTime RU (remaining_seconds RU now st) /\
      length (successive_differences (estimator_points RU st))
        = length (etaEstimators st) - 1) /\
  (forall (RU : ReaderUtil Exact.qnum) (now : Exact.qnum)
          (st : StatusRecord Exact.qnum) (l1 l2 : string),
      ripping_phase st ->
      etaEstimators st = [l1; l2] ->
      nsub (getDateFromTime RU (String.substring 1 8 l2))
           (getDateFromTime RU (String.substring 1 8 l1)) = nlit 60000 ->
      numChapters st = nlit 5 ->
      nsub now (getDateFromTime RU (String.substring 1 8 l2)) = nlit 180000 ->
      secondsToFormattedTime RU (nlit 0) = "00:00:00"%string ->
      remaining_seconds RU now st = nlit 0 /\
      calcEta RU now st = "00:00:00"%string).
Proof.
  assert (Hgen : forall (num : Type) (N : JSNumber num) (RU : ReaderUtil num)
                        (now : num) (st : StatusRecord num),
             ripping_phase st -> 2 <= length (etaEstimators st) ->
             calcEta RU now st
             = secondsToFormattedTime RU (remaining_seconds RU now st)).
  { intros num N RU now st Hphase Hlen. unfold calcEta.
    now rewrite (calcEtaTraced_computed RU now st Hphase Hlen). }
  split.
  - intros num N RU now st Hphase Hlen. split; [now apply Hgen|].
    rewrite successive_differences_length. unfold estimator_points.
    now rewrite length_map.
  - intros RU now st l1 l2 Hphase Hest Hmin Hch Hnow Hfmt.
    assert (Hval : remaining_seconds RU now st = nlit 0).
    { unfold remaining_seconds, arithmetic_mean, estimator_points.
      rewrite Hest, Hch. cbn [map successive_differences List.last length fold_left].
      rewrite Hmin, Hnow. vm_compute. reflexivity. }
    split; [exact Hval|].
    rewrite Hgen; [now rewrite Hval | exact Hphase | rewrite Hest; cbn; lia].
Qed.

Lemma calcEta_remaining_seconds_witness :
  remaining_seconds Sample.readerUtil Examples.now_0054 Examples.midEncode = nlit 0 /\
  calcEta Sample.readerUtil Examples.now_0054 Examples.midEncode = "00:00:00"%string /\
  remaining_seconds Sample.readerUtil Examples.now_0055 Examples.midEncode
    = nlit (-60) /\
  calcEta Sample.readerUtil Examples.now_0055 Examples.midEncode = "-00:01:00"%string.
Proof.
  split; [|split; [|split]].
  - apply (proj2 calcEta_remaining_seconds Sample.readerUtil Examples.now_0054
             Examples.midEncode
             "[00:50:00] finished chapter 1"%string
             "[00:51:00] finished chapter 2"%string);
      try reflexivity; try (vm_compute; reflexivity).
    left. reflexivity.
  - apply (proj2 calcEta_remaining_seconds Sample.readerUtil Examples.now_0054
             Examples.midEncode
             "[00:50:00] finished chapter 1"%string
             "[00:51:00] finished chapter 2"%string);
      try reflexivity; try (vm_compute; reflexivity).
    left. reflexivity.
  - vm_compute. reflexivity.
  - destruct (proj1 calcEta_remaining_seconds _ _ Sample.readerUtil Examples.now_0055
                Examples.midEncode) as [Heta _].
    + left. reflexivity.
    + cbn. lia.
    + rewrite Heta. vm_compute. reflexivity.
Defined.

(** ** Claims about the per-line fold *)

(** C6: for every record and every line whose verdict is SCANNING or
    SCAN_COMPLETE, folding the line leaves currentEncode, startTime, endTime
    and eta empty, numChapters at -1, etaEstimators empty, and statusText at
    that verdict; so does the whole line handler, which checks the
    indicators first. *)
Theorem scan_verdict_resets_record :
  forall (num : Type) (N : JSNumber num) (HB : HBStatus) (RU : ReaderUtil num)
         (st : StatusRecord num) (line : string),
    lineToStatus RU line (statusText st) = SCANNING \/
    lineToStatus RU line (statusText st) = SCAN_COMPLETE ->
    resolveStatus HB RU st line =
      {| currentEncode := ""; startTime := ""; endTime := "";
         statusText := lineToStatus RU line (statusText st);
         status := status st; numChapters := nlit (-1);
         etaEstimators := []; eta := "" |} /\
    onLine HB RU st line = resolveStatus HB RU st line.
Proof.
  intros num N HB RU st line Hv.
  assert (He : forall st0 : StatusRecord num,
             statusText st0 = statusText st -> status st0 = status st ->
             resolveStatus HB RU st0 line =
               {| currentEncode := ""; startTime := ""; endTime := "";
                  statusText := lineToStatus RU line (statusText st);
                  status := status st; numChapters := nlit (-1);
                  etaEstimators := []; eta := "" |}).
  { intros st0 Hs Hl. unfold resolveStatus. rewrite Hs.
    destruct Hv as [Hv|Hv]; rewrite Hv; unfold set_statusText, clearStats; cbn;
      now rewrite Hl. }
  split; [now apply He|].
  unfold onLine. rewrite (He st) by reflexivity. apply He.
  - apply addLineIfIsIndicator_statusText.
  - unfold addLineIfIsIndicator.
    destruct (TITLE_NUMBER HB line); [reflexivity|].
    destruct (CHAPTER_PROGRESS HB line); reflexivity.
Qed.

Lemma scan_verdict_resets_record_witness :
  etaEstimators Examples.midEncode <> [] /\
  resolveStatus Sample.hbStatus Sample.readerUtil Examples.midEncode Logs.scanLine =
    {| currentEncode := ""; startTime := ""; endTime := ""; statusText := SCANNING;
       status := None; numChapters := nlit (-1); etaEstimators := []; eta := "" |}.
Proof.
  split; [discriminate|].
  apply (scan_verdict_resets_record _ _ Sample.hbStatus Sample.readerUtil
           Examples.midEncode Logs.scanLine).
  left. vm_compute. reflexivity.
Defined.

(** C7: for every record and every line whose verdict is RIPPING, folding a
    line that does not contain the encode-started marker changes statusText
    only (etaEstimators and every other field stay), while a line that
    contains the marker resets the record and stores startTime (characters
    1..9) and currentEncode (the encode name of the line). *)
Theorem ripping_verdict_acts_on_marker_only :
  forall (num : Type) (N : JSNumber num) (HB : HBStatus) (RU : ReaderUtil num)
         (st : StatusRecord num) (line : string),
    lineToStatus RU line (statusText st) = RIPPING ->
    (lineContains RU line (ENCODE_STARTED HB) = false ->
       resolveStatus HB RU st line = set_statusText RIPPING st /\
       etaEstimators (resolveStatus HB RU st line) = etaEstimators st) /\
    (lineContains RU line (ENCODE_STARTED HB) = true ->
       resolveStatus HB RU st line =
         {| currentEncode := getEncodeName RU line;
            startTime := js_slice line 1 (Some 9%Z); endTime := "";
            statusText := RIPPING; status := status st;
            numChapters := nlit (-1); etaEstimators := []; eta := "" |}).
Proof.
  intros num N HB RU st line Hv. unfold resolveStatus. rewrite Hv.
  split; intros Hm; rewrite Hm; cbn [negb]; [split|]; reflexivity.
Qed.

Lemma ripping_verdict_acts_on_marker_only_witness :
  (resolveStatus Sample.hbStatus Sample.readerUtil Logs.ripping Logs.chatter'
     = Logs.ripping /\
   etaEstimators Logs.ripping = ["[00:50:00] finished chapter 1"%string]) /\
  resolveStatus Sample.hbStatus Sample.readerUtil Logs.ripping Logs.startLine =
    {| currentEncode := "Snatched"; startTime := "01:10:00"; endTime := "";
       statusText := RIPPING; status := None; numChapters := nlit (-1);
       etaEstimators := []; eta := "" |}.
Proof.
  split.
  - split; [|reflexivity].
    destruct (ripping_verdict_acts_on_marker_only _ _ Sample.hbStatus
                Sample.readerUtil Logs.ripping Logs.chatter') as [Hno _].
    + vm_compute. reflexivity.
    + destruct Hno as [Heq _]; [vm_compute; reflexivity|].
      rewrite Heq. reflexivity.
  - destruct (ripping_verdict_acts_on_marker_only _ _ Sample.hbStatus
                Sample.readerUtil Logs.ripping Logs.startLine) as [_ Hyes].
    + vm_compute. reflexivity.
    + rewrite Hyes; [reflexivity | vm_compute; reflexivity].
Defined.

(** C1, as the code has it: for a line that matches no indicator pattern,
    does not contain the encode-started marker, and whose verdict is the
    carried-over statusText, folding leaves statusText as it was, and
    - under RIPPING no field changes;
    - under RIPPING_SUB_SCAN or RIPPING_ENCODING only eta can change, to "~";
    - under SCANNING or SCAN_COMPLETE the record is the cleared record with
      that statusText;
    - under QUEUE_COMPLETE every field other than endTime is unchanged.
    On a record reached by replaying lines from the fresh record, no field
    changes unless statusText is QUEUE_COMPLETE. *)
Theorem inert_line_fold :
  forall (num : Type) (N : JSNumber num) (HB : HBStatus) (RU : ReaderUtil num)
         (st : StatusRecord num) (line : string),
    no_indicator HB line ->
    carried_over RU st line ->
    lineContains RU line (ENCODE_STARTED HB) = false ->
    statusText (onLine HB RU st line) = statusText st /\
    match statusText st with
    | RIPPING => onLine HB RU st line = st
    | RIPPING_SUB_SCAN | RIPPING_ENCODING => onLine HB RU st line = set_eta "~" st
    | SCANNING | SCAN_COMPLETE =>
        onLine HB RU st line = set_statusText (statusText st) (clearStats st)
    | QUEUE_COMPLETE => set_endTime (endTime st) (onLine HB RU st line) = st
    end /\
    ((exists lines, st = replay HB RU lines) ->
     statusText st <> QUEUE_COMPLETE ->
     onLine HB RU st line = st).
Proof.
  intros num N HB RU st line Hind Hc Hm.
  unfold onLine. rewrite (addLineIfIsIndicator_inert HB st line Hind).
  rewrite (resolveStatus_carried_over HB RU st line Hc Hm).
  split; [|split].
  - destruct st as [ce stt et tx lb nc es e]; cbn. destruct tx; reflexivity.
  - destruct st as [ce stt et tx lb nc es e]; cbn. destruct tx; reflexivity.
  - intros [lines ->] Hq.
    pose proof (replay_settled HB RU lines) as Hs. unfold settled in Hs.
    destruct (statusText (replay HB RU lines)) eqn:Htx;
      try (symmetry; exact Hs); try reflexivity; try congruence.
    + rewrite <- Hs. apply set_eta_id.
    + rewrite <- Hs. apply set_eta_id.
Qed.

Lemma inert_line_fold_witness :
  onLine Sample.hbStatus Sample.readerUtil Logs.ripping Logs.chatter' = Logs.ripping /\
  onLine Sample.hbStatus Sample.readerUtil Logs.scanning Logs.chatter = Logs.scanning.
Proof.
  split.
  - apply (inert_line_fold _ _ Sample.hbStatus Sample.readerUtil
             Logs.ripping Logs.chatter').
    + split; vm_compute; reflexivity.
    + vm_compute. reflexivity.
    + vm_compute. reflexivity.
    + eexists. reflexivity.
    + vm_compute. discriminate.
  - apply (inert_line_fold _ _ Sample.hbStatus Sample.readerUtil
             Logs.scanning Logs.chatter).
    + split; vm_compute; reflexivity.
    + vm_compute. reflexivity.
    + vm_compute. reflexivity.
    + eexists. reflexivity.
    + vm_compute. discriminate.
Defined.

(** C1 fails as stated.  After a completed queue a chatter line overwrites
    endTime; and on records that no replay produces, a carried-over scan
    status clears numChapters and a carried-over encoding status rewrites
    eta. *)
Lemma inert_line_changes_record :
  (no_indicator Sample.hbStatus Logs.chatter /\
   carried_over Sample.readerUtil Logs.completed Logs.chatter /\
   endTime Logs.completed = "00:34:57"%string /\
   endTime (onLine Sample.hbStatus Sample.readerUtil Logs.completed Logs.chatter)
     = "00:35:10"%string /\
   onLine Sample.hbStatus Sample.readerUtil Logs.completed Logs.chatter
     <> Logs.completed) /\
  (carried_over Sample.readerUtil (set_statusText SCANNING Examples.midEncode)
     Logs.chatter /\
   numChapters (set_statusText SCANNING Examples.midEncode) = nlit 5 /\
   numChapters (onLine Sample.hbStatus Sample.readerUtil
                  (set_statusText SCANNING Examples.midEncode) Logs.chatter)
     = nlit (-1)) /\
  (carried_over Sample.readerUtil (set_eta "" Examples.midEncode) Logs.chatter /\
   eta (onLine Sample.hbStatus Sample.readerUtil
          (set_eta "" Examples.midEncode) Logs.chatter) = "~"%string).
Proof.
  repeat split; try (vm_compute; reflexivity).
  intros H. apply (f_equal endTime) in H. vm_compute in H. discriminate H.
Qed.

(** C2, as the code has it: the indicator check and the status fold commute
    on every line that does not make the fold clear the record (its verdict
    is neither SCANNING nor SCAN_COMPLETE, and it is not an encode-started
    marker under the verdict RIPPING), and on every line that matches
    neither indicator pattern. *)
Theorem indicator_and_status_commute :
  forall (num : Type) (N : JSNumber num) (HB : HBStatus) (RU : ReaderUtil num)
         (st : StatusRecord num) (line : string),
    resets HB RU st line = false \/ no_indicator HB line ->
    resolveStatus HB RU (addLineIfIsIndicator HB st line) line
    = addLineIfIsIndicator HB (resolveStatus HB RU st line) line.
Proof.
  intros num N HB RU st line [H|H].
  - now apply commute_without_reset.
  - now apply commute_without_indicator.
Qed.

Lemma indicator_and_status_commute_witness :
  resolveStatus Sample.hbStatus Sample.readerUtil
    (addLineIfIsIndicator Sample.hbStatus Logs.ripping Logs.chapterCount)
    Logs.chapterCount
  = addLineIfIsIndicator Sample.hbStatus
      (resolveStatus Sample.hbStatus Sample.readerUtil Logs.ripping Logs.chapterCount)
      Logs.chapterCount.
Proof.
  apply (indicator_and_status_commute _ _ Sample.hbStatus Sample.readerUtil
           Logs.ripping Logs.chapterCount).
  left. vm_compute. reflexivity.
Defined.

(** C2 fails as stated: while the status is SCANNING, a chapter-count line
    keeps the verdict SCANNING, so the fold clears numChapters; checked
    before the fold the count is lost, checked after it the count stays. *)
Lemma indicator_and_status_do_not_commute :
  TITLE_NUMBER Sample.hbStatus Logs.chapterCount = true /\
  lineToStatus Sample.readerUtil Logs.chapterCount (statusText Logs.scanning)
    = SCANNING /\
  numChapters (resolveStatus Sample.hbStatus Sample.readerUtil
                 (addLineIfIsIndicator Sample.hbStatus Logs.scanning Logs.chapterCount)
                 Logs.chapterCount) = nlit (-1) /\
  numChapters (addLineIfIsIndicator Sample.hbStatus
                 (resolveStatus Sample.hbStatus Sample.readerUtil Logs.scanning
                    Logs.chapterCount)
                 Logs.chapterCount) = nlit 12 /\
  resolveStatus Sample.hbStatus Sample.readerUtil
    (addLineIfIsIndicator Sample.hbStatus Logs.scanning Logs.chapterCount)
    Logs.chapterCount
  <> addLineIfIsIndicator Sample.hbStatus
       (resolveStatus Sample.hbStatus Sample.readerUtil Logs.scanning Logs.chapterCount)
       Logs.chapterCount.
Proof.
  repeat split; try (vm_compute; reflexivity).
  intros H. apply (f_equal numChapters) in H. vm_compute in H. discriminate H.
Qed.

(** ** Claims about getHBStatusItems *)

(** C8: when the line source of a query fails (its interface emits 'error'
    before any 'close', at once or after some lines), the promise of the
    query is rejected with that error and stays so, and at no moment from the
    call on does the caller hold a status record. *)
Theorem failing_source_rejects :
  forall (num : Type) (N : JSNumber num) (HB : HBStatus) (RU : ReaderUtil num)
         (seam : nat -> option num) (w : World num) (i q : nat)
         (mid rest : list (Event num)) (err : string),
    forallb (fun e => negb (starts q e) && negb (settles q e)) mid = true ->
    forallb (fun e => negb (starts q e)) rest = true ->
    outcome (run HB RU seam w (Call i q :: mid ++ Emit i q (EvError err) :: rest)) q
      = Failed err /\
    forall (n : nat) (st : StatusRecord num),
      outcome (run HB RU seam w
                 (Call i q :: take n (mid ++ Emit i q (EvError err) :: rest))) q
      <> Delivered st.
Proof.
  intros num N HB RU seam w i q mid rest err Hmid Hrest. split.
  - pose proof (failing_query_prefix HB RU seam w i q mid rest err
                  (length (mid ++ Emit i q (EvError err) :: rest)) Hmid Hrest) as H.
    cbn zeta in H. rewrite firstn_all in H. destruct H as [H|H].
    + exfalso. revert H. refold_run. rewrite run_app. refold_run.
      rewrite (run_promise_rejected HB RU seam q err rest); [discriminate | exact Hrest |].
      cbn. rewrite settle_same, run_promise_quiet by exact Hmid.
      cbn. now rewrite lookup_insert_eq.
    + unfold outcome. now rewrite H.
  - intros n st.
    pose proof (failing_query_prefix HB RU seam w i q mid rest err n Hmid Hrest) as H.
    cbn zeta in H. unfold outcome. destruct H as [-> | ->]; discriminate.
Qed.

Lemma failing_source_rejects_witness :
  outcome (run Sample.hbStatus Sample.readerUtil Sample.noSeam noWorld
             (Call 0 1 :: Runs.failing_mid ++ Emit 0 1 (EvError "EIO") :: Runs.failing_rest)) 1
    = Failed "EIO" /\
  outcome (run Sample.hbStatus Sample.readerUtil Sample.noSeam noWorld
             (Call 0 1 :: [] ++ Emit 0 1 (EvError "ENOENT") :: [])) 1
    = Failed "ENOENT".
Proof.
  split.
  - apply (failing_source_rejects _ _ Sample.hbStatus Sample.readerUtil Sample.noSeam
             noWorld 0 1 Runs.failing_mid Runs.failing_rest "EIO"); reflexivity.
  - apply (failing_source_rejects _ _ Sample.hbStatus Sample.readerUtil Sample.noSeam
             noWorld 0 1 [] [] "ENOENT"); reflexivity.
Defined.

(** C9, as the code has it: a query is independent of the other queries
    in flight as long as, from its call on, no other query runs on its
    LogReader instance.  Whatever happened before the call and however the
    events of queries on other instances interleave with its own, its outcome
    is the outcome of its own events alone; when these are its lines and
    'close', it resolves with the record of the whole replay. *)
Theorem queries_on_distinct_instances_independent :
  forall (num : Type) (N : JSNumber num) (HB : HBStatus) (RU : ReaderUtil num)
         (seam : nat -> option num) (a q : nat) (pre rest : list (Event num)),
    forallb (fun e => eqb (on_instance a e) (of_query q e)) rest = true ->
    outcome (run HB RU seam noWorld (pre ++ Call a q :: rest)) q
      = outcome (run HB RU seam noWorld (Call a q :: List.filter (of_query q) rest)) q /\
    forall (lines : list string) (clock : num),
      Call a q :: List.filter (of_query q) rest = query_ok a q lines clock ->
      outcome (run HB RU seam noWorld (pre ++ Call a q :: rest)) q
        = Delivered (onClose HB RU (currentDate seam a clock) (replay HB RU lines)).
Proof.
  intros num N HB RU seam a q pre rest Hrest.
  assert (H : outcome (run HB RU seam noWorld (pre ++ Call a q :: rest)) q
              = outcome (run HB RU seam noWorld
                           (Call a q :: List.filter (of_query q) rest)) q).
  { rewrite run_app. refold_run. apply (alone_like_outcome a q).
    apply alone_like_run; [exact Hrest|].
    apply alone_like_call. apply valid_run, valid_noWorld. }
  split; [exact H|].
  intros lines clock Hf. rewrite H, Hf. apply query_ok_outcome.
Qed.

Lemma queries_on_distinct_instances_independent_witness :
  outcome (run Sample.hbStatus Sample.readerUtil Sample.noSeam noWorld
             (Runs.earlier ++ Call 0 1 :: Runs.twoReaders)) 1
  = Delivered (onClose Sample.hbStatus Sample.readerUtil Runs.clock
                 (replay Sample.hbStatus Sample.readerUtil Runs.log)).
Proof.
  apply (proj2 (queries_on_distinct_instances_independent _ _ Sample.hbStatus
                  Sample.readerUtil Sample.noSeam 0 1 Runs.earlier Runs.twoReaders
                  eq_refl)
           Runs.log Runs.clock).
  reflexivity.
Defined.

(** C9 fails as stated: two queries in flight on the same instance write to
    one status object.  Each replays the same log; alone a query resolves
    with one estimator line and the ETA "~", together both promises resolve
    with the same object, which holds every estimator line twice. *)
Lemma overlapping_queries_share_status :
  outcome (run Sample.hbStatus Sample.readerUtil Sample.noSeam noWorld
             (query_ok 0 1 Runs.log Runs.clock)) 1
    = Delivered
        {| currentEncode := "How to be Single"; startTime := "00:43:52"; endTime := "";
           statusText := RIPPING_ENCODING; status := Some "Ripping (encoding)"%string;
           numChapters := nlit 5;
           etaEstimators := ["[00:50:00] finished chapter 1"%string];
           eta := "~" |} /\
  outcome (run Sample.hbStatus Sample.readerUtil Sample.noSeam noWorld Runs.overlapping) 1
    = Delivered
        {| currentEncode := "How to be Single"; startTime := "00:43:52"; endTime := "";
           statusText := RIPPING_ENCODING; status := Some "Ripping (encoding)"%string;
           numChapters := nlit 5;
           etaEstimators := ["[00:50:00] finished chapter 1"%string;
                             "[00:50:00] finished chapter 1"%string];
           eta := "-00:04:00" |} /\
  promises (run Sample.hbStatus Sample.readerUtil Sample.noSeam noWorld Runs.overlapping)
    !! 1 = Some (Fulfilled 1) /\
  promises (run Sample.hbStatus Sample.readerUtil Sample.noSeam noWorld Runs.overlapping)
    !! 2 = Some (Fulfilled 1) /\
  List.filter (of_query 1) Runs.overlapping = query_ok 0 1 Runs.log Runs.clock /\
  outcome (run Sample.hbStatus Sample.readerUtil Sample.noSeam noWorld Runs.overlapping) 1
    <> outcome (run Sample.hbStatus Sample.readerUtil Sample.noSeam noWorld
                  (List.filter (of_query 1) Runs.overlapping)) 1.
Proof.
  repeat split; try (vm_compute; reflexivity).
  vm_compute. discriminate.
Qed.

(** ** Further properties of the replay *)

(** X1: a replay that ends in the phase SCANNING or SCAN_COMPLETE resolves
    with an empty eta and an empty currentEncode. *)
Theorem scan_phase_run_has_no_eta :
  forall (num : Type) (N : JSNumber num) (HB : HBStatus) (RU : ReaderUtil num)
         (now : num) (lines : list string),
    statusText (replay HB RU lines) = SCANNING \/
    statusText (replay HB RU lines) = SCAN_COMPLETE ->
    eta (onClose HB RU now (replay HB RU lines)) = ""%string /\
    currentEncode (onClose HB RU now (replay HB RU lines)) = ""%string.
Proof.
  intros num N HB RU now lines Hs.
  pose proof (replay_settled HB RU lines) as Hset. unfold settled in Hset.
  rewrite onClose_eta. unfold calcEta, calcEtaTraced.
  destruct Hs as [Hs|Hs]; rewrite Hs in *; cbn; rewrite Hset; split; reflexivity.
Qed.

Lemma scan_phase_run_has_no_eta_witness :
  eta (onClose Sample.hbStatus Sample.readerUtil Runs.clock
         (replay Sample.hbStatus Sample.readerUtil Runs.scanLog)) = ""%string.
Proof.
  apply (scan_phase_run_has_no_eta _ _ Sample.hbStatus Sample.readerUtil
           Runs.clock Runs.scanLog).
  left. vm_compute. reflexivity.
Defined.

(** X2: the line handler either leaves etaEstimators empty (the record was
    cleared) or extends it at the end by at most the line itself. *)
Theorem etaEstimators_cleared_or_grows :
  forall (num : Type) (N : JSNumber num) (HB : HBStatus) (RU : ReaderUtil num)
         (st : StatusRecord num) (line : string),
    etaEstimators (onLine HB RU st line) = [] \/
    etaEstimators (onLine HB RU st line) = etaEstimators st \/
    etaEstimators (onLine HB RU st line) = etaEstimators st ++ [line].
Proof.
  intros num N HB RU st line. unfold onLine, resolveStatus.
  rewrite addLineIfIsIndicator_statusText.
  assert (Hi : etaEstimators (addLineIfIsIndicator HB st line) = etaEstimators st \/
               etaEstimators (addLineIfIsIndicator HB st line)
                 = etaEstimators st ++ [line]).
  { unfold addLineIfIsIndicator.
    destruct (TITLE_NUMBER HB line); [left; reflexivity|].
    destruct (CHAPTER_PROGRESS HB line); [right|left]; reflexivity. }
  destruct (lineToStatus RU line (statusText st)); cbn;
    try (left; reflexivity); try (right; exact Hi).
  destruct (lineContains RU line (ENCODE_STARTED HB)); cbn;
    [left; reflexivity | right; exact Hi].
Qed.

(** * Further properties *)

(** ** What the replay keeps of the log *)

Section ReplayLemmas.
Context {num : Type} {N : JSNumber num}.
Variable HB : HBStatus.
Variable RU : ReaderUtil num.

Lemma fold_onLine_statusText (lines : list string) (st : StatusRecord num) :
  statusText (fold_left (onLine HB RU) lines st)
  = fold_left (fun s line => lineToStatus RU line s) lines (statusText st).
Proof.
  revert st. induction lines as [|l lines IH]; intros st; [reflexivity|].
  cbn [fold_left]. rewrite IH. unfold onLine.
  now rewrite resolveStatus_statusText, addLineIfIsIndicator_statusText.
Qed.

Lemma fold_onLine_status (lines : list string) (st : StatusRecord num) :
  status (fold_left (onLine HB RU) lines st) = status st.
Proof.
  revert st. induction lines as [|l lines IH]; intros st; [reflexivity|].
  cbn [fold_left]. rewrite IH. unfold onLine, resolveStatus, addLineIfIsIndicator.
  destruct (TITLE_NUMBER HB l); [|destruct (CHAPTER_PROGRESS HB l)]; cbn;
    destruct (lineToStatus RU l (statusText st)); cbn; try reflexivity;
    destruct (lineContains RU l (ENCODE_STARTED HB)); reflexivity.
Qed.

(** The three things the line handler can do to etaEstimators. *)
Lemma onLine_etaEstimators (st : StatusRecord num) (line : string) :
  etaEstimators (onLine HB RU st line) = [] \/
  etaEstimators (onLine HB RU st line) = etaEstimators st \/
  (pushed HB line = true /\
   etaEstimators (onLine HB RU st line) = etaEstimators st ++ [line]).
Proof.
  unfold onLine, resolveStatus, pushed.
  rewrite addLineIfIsIndicator_statusText.
  assert (Hi : etaEstimators (addLineIfIsIndicator HB st line) = etaEstimators st \/
               (CHAPTER_PROGRESS HB line && negb (TITLE_NUMBER HB line) = true /\
                etaEstimators (addLineIfIsIndicator HB st line)
                  = etaEstimators st ++ [line])).
  { unfold addLineIfIsIndicator.
    destruct (TITLE_NUMBER HB line); [left; reflexivity|].
    destruct (CHAPTER_PROGRESS HB line); [right; split|left]; reflexivity. }
  destruct (lineToStatus RU line (statusText st)); cbn;
    try (left; reflexivity); try (right; exact Hi).
  destruct (lineContains RU line (ENCODE_STARTED HB)); cbn;
    [left; reflexivity | right; exact Hi].
Qed.

(** The same, told apart by whether the line is one that is pushed. *)
Lemma onLine_etaEstimators_pushed (st : StatusRecord num) (line : string) :
  etaEstimators (onLine HB RU st line) = [] \/
  etaEstimators (onLine HB RU st line)
    = etaEstimators st ++ (if pushed HB line then [line] else []).
Proof.
  unfold onLine, resolveStatus, pushed.
  rewrite addLineIfIsIndicator_statusText.
  assert (Hi : etaEstimators (addLineIfIsIndicator HB st line)
               = etaEstimators st
                 ++ (if CHAPTER_PROGRESS HB line && negb (TITLE_NUMBER HB line)
                     then [line] else [])).
  { unfold addLineIfIsIndicator.
    destruct (TITLE_NUMBER HB line);
      [now rewrite andb_false_r, app_nil_r|].
    destruct (CHAPTER_PROGRESS HB line); cbn; [reflexivity|].
    now rewrite app_nil_r. }
  destruct (lineToStatus RU line (statusText st)); cbn;
    try (left; reflexivity); try (right; exact Hi).
  destruct (lineContains RU line (ENCODE_STARTED HB)); cbn;
    [left; reflexivity | right; exact Hi].
Qed.

(** The three things the line handler can do to numChapters. *)
Lemma onLine_numChapters (st : StatusRecord num) (line : string) :
  numChapters (onLine HB RU st line) = nlit (-1) \/
  numChapters (onLine HB RU st line) = numChapters st \/
  (TITLE_NUMBER HB line = true /\
   numChapters (onLine HB RU st line) = chapters_of line).
Proof.
  unfold onLine, resolveStatus, chapters_of.
  rewrite addLineIfIsIndicator_statusText.
  assert (Hi : numChapters (addLineIfIsIndicator HB st line) = numChapters st \/
               (TITLE_NUMBER HB line = true /\
                numChapters (addLineIfIsIndicator HB st line)
                  = Number_ (js_trim (js_slice line (-2) None)))).
  { unfold addLineIfIsIndicator.
    destruct (TITLE_NUMBER HB line); [right; split; reflexivity|].
    destruct (CHAPTER_PROGRESS HB line); left; reflexivity. }
  destruct (lineToStatus RU line (statusText st)); cbn;
    try (left; reflexivity); try (right; exact Hi).
  destruct (lineContains RU line (ENCODE_STARTED HB)); cbn;
    [left; reflexivity | right; exact Hi].
Qed.

(** The three things the line handler can do to currentEncode and
    startTime: they move together. *)
Lemma onLine_encode (st : StatusRecord num) (line : string) :
  (currentEncode (onLine HB RU st line) = ""%string /\
   startTime (onLine HB RU st line) = ""%string) \/
  (currentEncode (onLine HB RU st line) = currentEncode st /\
   startTime (onLine HB RU st line) = startTime st) \/
  (lineContains RU line (ENCODE_STARTED HB) = true /\
   currentEncode (onLine HB RU st line) = getEncodeName RU line /\
   startTime (onLine HB RU st line) = js_slice line 1 (Some 9%Z)).
Proof.
  unfold onLine, resolveStatus.
  rewrite addLineIfIsIndicator_statusText.
  assert (Hi : currentEncode (addLineIfIsIndicator HB st line) = currentEncode st /\
               startTime (addLineIfIsIndicator HB st line) = startTime st).
  { unfold addLineIfIsIndicator.
    destruct (TITLE_NUMBER HB line); [split; reflexivity|].
    destruct (CHAPTER_PROGRESS HB line); split; reflexivity. }
  destruct (lineToStatus RU line (statusText st)); cbn;
    try (left; split; reflexivity); try (right; left; exact Hi).
  destruct (lineContains RU line (ENCODE_STARTED HB)); cbn;
    [right; right; repeat split; reflexivity | right; left; exact Hi].
Qed.

(** endTime is cleared, kept, or taken from characters 1..9 of the line. *)
Lemma onLine_endTime (st : StatusRecord num) (line : string) :
  endTime (onLine HB RU st line) = ""%string \/
  endTime (onLine HB RU st line) = endTime st \/
  endTime (onLine HB RU st line) = js_slice line 1 (Some 9%Z).
Proof.
  unfold onLine, resolveStatus.
  rewrite addLineIfIsIndicator_statusText.
  assert (Hi : endTime (addLineIfIsIndicator HB st line) = endTime st).
  { unfold addLineIfIsIndicator.
    destruct (TITLE_NUMBER HB line); [reflexivity|].
    destruct (CHAPTER_PROGRESS HB line); reflexivity. }
  destruct (lineToStatus RU line (statusText st)); cbn;
    try (left; reflexivity); try (right; left; exact Hi);
    try (right; right; reflexivity).
  destruct (lineContains RU line (ENCODE_STARTED HB)); cbn;
    [left; reflexivity | right; left; exact Hi].
Qed.

(** A line that clears the record makes the handler forget the record it
    started from: only the verdict and the label survive. *)
Lemma onLine_reset_forgets (st1 st2 : StatusRecord num) (line : string) :
  lineToStatus RU line (statusText st1) = lineToStatus RU line (statusText st2) ->
  status st1 = status st2 ->
  resets HB RU st1 line = true ->
  onLine HB RU st1 line = onLine HB RU st2 line.
Proof.
  intros Hv Hl Hr. unfold resets in Hr. unfold onLine, resolveStatus.
  rewrite !addLineIfIsIndicator_statusText, <- Hv.
  assert (Hs : forall st, status (addLineIfIsIndicator HB st line) = status st).
  { intros st. unfold addLineIfIsIndicator.
    destruct (TITLE_NUMBER HB line); [reflexivity|].
    destruct (CHAPTER_PROGRESS HB line); reflexivity. }
  destruct (lineToStatus RU line (statusText st1)); try discriminate;
    try rewrite Hr; unfold clearStats, set_statusText, set_currentEncode,
      set_startTime; cbn; now rewrite !Hs, Hl.
Qed.

Lemma length_substring_le (n m : nat) (s : string) :
  String.length (String.substring n m s) <= m.
Proof.
  revert n m. induction s as [|c s IH]; intros [|n] [|m]; cbn; try lia.
  - specialize (IH 0 m). lia.
  - apply (IH n 0).
  - apply (IH n (S m)).
Qed.

Lemma length_js_slice_1_9 (s : string) :
  String.length (js_slice s 1 (Some 9%Z)) <= 8.
Proof. rewrite js_slice_1_9. apply length_substring_le. Qed.

End ReplayLemmas.

(** ** Properties of the replay *)

(** X3: the status a replay ends in is the classifier folded over the log
    from QUEUE_COMPLETE; no indicator table and no field of the record has a
    say in it, and the label written on 'close' is the label of that
    status. *)
Theorem replay_status_is_fold_of_verdicts :
  forall (num : Type) (N : JSNumber num) (HB HB' : HBStatus) (RU : ReaderUtil num)
         (now : num) (lines : list string),
    statusText (replay HB RU lines) = final_verdict RU lines /\
    statusText (replay HB' RU lines) = statusText (replay HB RU lines) /\
    status (onClose HB RU now (replay HB RU lines))
      = Some (REVERSE_STATUS_LOOKUP HB (final_verdict RU lines)).
Proof.
  intros num N HB HB' RU now lines.
  assert (H : forall T : HBStatus, statusText (replay T RU lines) = final_verdict RU lines).
  { intros T. unfold replay, final_verdict. now rewrite fold_onLine_statusText. }
  split; [apply H|]. split; [now rewrite !H|].
  cbn. now rewrite H.
Qed.

(** X4: etaEstimators of a replay is a suffix of the chapter-progress lines
    of the log (those that match the chapter-progress pattern and not the
    chapter-count pattern), in log order: the most recent of them, without
    gaps. *)
Theorem replay_etaEstimators_suffix :
  forall (num : Type) (N : JSNumber num) (HB : HBStatus) (RU : ReaderUtil num)
         (lines : list string),
    exists older : list string,
      List.filter (pushed HB) lines = older ++ etaEstimators (replay HB RU lines).
Proof.
  intros num N HB RU lines.
  induction lines as [|l lines IH] using rev_ind.
  - exists []. reflexivity.
  - destruct IH as [older IH]. rewrite replay_snoc, List.filter_app. cbn [List.filter].
    destruct (onLine_etaEstimators_pushed HB RU (replay HB RU lines) l) as [H|H];
      rewrite H.
    + eexists. now rewrite app_nil_r.
    + exists older. rewrite IH, app_assoc. reflexivity.
Qed.

(** X5: numChapters of a replay is -1 or what Number reads in the trimmed
    last two characters of a line of the log that matches the chapter-count
    pattern. *)
Theorem replay_numChapters_origin :
  forall (num : Type) (N : JSNumber num) (HB : HBStatus) (RU : ReaderUtil num)
         (lines : list string),
    numChapters (replay HB RU lines) = nlit (-1) \/
    exists line, In line lines /\ TITLE_NUMBER HB line = true /\
                 numChapters (replay HB RU lines) = chapters_of line.
Proof.
  intros num N HB RU lines.
  induction lines as [|l lines IH] using rev_ind; [left; reflexivity|].
  rewrite replay_snoc.
  destruct (onLine_numChapters HB RU (replay HB RU lines) l) as [H|[H|[Ht H]]];
    rewrite H.
  - left. reflexivity.
  - destruct IH as [IH|(line & Hin & Ht & IH)]; [left; exact IH|].
    right. exists line. rewrite in_app_iff. auto.
  - right. exists l. rewrite in_app_iff. cbn. auto.
Qed.

(** X6: currentEncode and startTime of a replay are both empty, or both
    taken from one and the same line of the log, which contains the
    encode-started marker. *)
Theorem replay_encode_from_one_marker_line :
  forall (num : Type) (N : JSNumber num) (HB : HBStatus) (RU : ReaderUtil num)
         (lines : list string),
    (currentEncode (replay HB RU lines) = ""%string /\
     startTime (replay HB RU lines) = ""%string) \/
    exists line, In line lines /\
                 lineContains RU line (ENCODE_STARTED HB) = true /\
                 currentEncode (replay HB RU lines) = getEncodeName RU line /\
                 startTime (replay HB RU lines) = js_slice line 1 (Some 9%Z).
Proof.
  intros num N HB RU lines.
  induction lines as [|l lines IH] using rev_ind; [left; split; reflexivity|].
  rewrite replay_snoc.
  destruct (onLine_encode HB RU (replay HB RU lines) l)
    as [[H1 H2]|[[H1 H2]|(Hm & H1 & H2)]]; rewrite H1, H2.
  - left. split; reflexivity.
  - destruct IH as [IH|(line & Hin & Hm & IH)]; [left; exact IH|].
    right. exists line. rewrite in_app_iff. auto.
  - right. exists l. rewrite in_app_iff. cbn. auto.
Qed.

(** X7: a line that clears the record (a scan verdict, or the encode-started
    marker under the verdict RIPPING) makes the replay forget what came
    before it: two logs that differ only before such a line, and give it
    the same verdict, end in the same record. *)
Theorem replay_forgets_before_reset :
  forall (num : Type) (N : JSNumber num) (HB : HBStatus) (RU : ReaderUtil num)
         (pre1 pre2 post : list string) (line : string),
    lineToStatus RU line (statusText (replay HB RU pre1))
      = lineToStatus RU line (statusText (replay HB RU pre2)) ->
    resets HB RU (replay HB RU pre1) line = true ->
    replay HB RU (pre1 ++ line :: post) = replay HB RU (pre2 ++ line :: post).
Proof.
  intros num N HB RU pre1 pre2 post line Hv Hr.
  unfold replay. rewrite !fold_left_app. cbn [fold_left]. f_equal.
  apply onLine_reset_forgets; [exact Hv | | exact Hr].
  now rewrite !fold_onLine_status.
Qed.

Lemma replay_forgets_before_reset_witness :
  replay Sample.hbStatus Sample.readerUtil
    (["[23:50:00] scan complete"%string;
      "[23:55:58] Starting encode: Snatched"%string;
      "[00:34:57] Queue complete"%string] ++ Logs.startLine :: [Logs.chatter'])
  = replay Sample.hbStatus Sample.readerUtil ([] ++ Logs.startLine :: [Logs.chatter']).
Proof.
  apply (replay_forgets_before_reset _ _ Sample.hbStatus Sample.readerUtil).
  - vm_compute. reflexivity.
  - vm_compute. reflexivity.
Defined.

(** X8: whatever the log holds, startTime and endTime of a replay have at
    most eight characters (a line shorter than nine characters gives a
    shorter value, not a failure). *)
Theorem replay_times_at_most_8_chars :
  forall (num : Type) (N : JSNumber num) (HB : HBStatus) (RU : ReaderUtil num)
         (lines : list string),
    String.length (startTime (replay HB RU lines)) <= 8 /\
    String.length (endTime (replay HB RU lines)) <= 8.
Proof.
  intros num N HB RU lines.
  induction lines as [|l lines [IHs IHe]] using rev_ind; [cbn; lia|].
  rewrite replay_snoc. split.
  - destruct (onLine_encode HB RU (replay HB RU lines) l)
      as [[_ H]|[[_ H]|(_ & _ & H)]]; rewrite H;
      [cbn; lia | exact IHs | apply length_js_slice_1_9].
  - destruct (onLine_endTime HB RU (replay HB RU lines) l) as [H|[H|H]]; rewrite H;
      [cbn; lia | exact IHe | apply length_js_slice_1_9].
Qed.

(** X9: a log in which no line changes the status (the empty log among
    them) resolves like a finished queue: statusText QUEUE_COMPLETE, eta
    "00:00:00", and no encode name and start time. *)
Theorem idle_log_reads_as_complete :
  forall (num : Type) (N : JSNumber num) (HB : HBStatus) (RU : ReaderUtil num)
         (now : num) (lines : list string),
    Forall (fun line => lineToStatus RU line QUEUE_COMPLETE = QUEUE_COMPLETE) lines ->
    statusText (onClose HB RU now (replay HB RU lines)) = QUEUE_COMPLETE /\
    eta (onClose HB RU now (replay HB RU lines)) = "00:00:00"%string /\
    currentEncode (onClose HB RU now (replay HB RU lines)) = ""%string /\
    startTime (onClose HB RU now (replay HB RU lines)) = ""%string.
Proof.
  intros num N HB RU now lines Hall.
  assert (H : statusText (replay HB RU lines) = QUEUE_COMPLETE /\
              currentEncode (replay HB RU lines) = ""%string /\
              startTime (replay HB RU lines) = ""%string).
  { induction lines as [|l lines IH] using rev_ind; [repeat split|].
    apply Forall_app in Hall as [Hall Hl]. apply Forall_inv in Hl.
    destruct (IH Hall) as (Hs & Hc & Ht). rewrite replay_snoc.
    unfold onLine, resolveStatus.
    rewrite addLineIfIsIndicator_statusText, Hs, Hl. cbn.
    unfold addLineIfIsIndicator.
    destruct (TITLE_NUMBER HB l); [|destruct (CHAPTER_PROGRESS HB l)]; cbn; auto. }
  destruct H as (Hs & Hc & Ht).
  rewrite onClose_eta. unfold calcEta, calcEtaTraced. cbn. rewrite Hs. cbn. auto.
Qed.

Lemma idle_log_reads_as_complete_witness :
  eta (onClose Sample.hbStatus Sample.readerUtil Runs.clock
         (replay Sample.hbStatus Sample.readerUtil [])) = "00:00:00"%string /\
  eta (onClose Sample.hbStatus Sample.readerUtil Runs.clock
         (replay Sample.hbStatus Sample.readerUtil [Logs.chatter; Logs.chapterCount]))
    = "00:00:00"%string.
Proof.
  split.
  - destruct (idle_log_reads_as_complete _ _ Sample.hbStatus Sample.readerUtil
                Runs.clock []) as (_ & H & _); [constructor | exact H].
  - destruct (idle_log_reads_as_complete _ _ Sample.hbStatus Sample.readerUtil
                Runs.clock [Logs.chatter; Logs.chapterCount]) as (_ & H & _);
      [|exact H].
    constructor; [vm_compute; reflexivity|].
    constructor; [vm_compute; reflexivity|]. constructor.
Defined.

(** X10: unless calcEta reaches the interval computation (a ripping phase
    with at least two estimator lines), the ETA is one of the three fixed
    strings "00:00:00", "" and "~", and the clock has no part in it. *)
Theorem calcEta_fixed_without_intervals :
  forall (num : Type) (N : JSNumber num) (RU : ReaderUtil num)
         (now now' : num) (st : StatusRecord num),
    (ripping_phase st -> length (etaEstimators st) < 2) ->
    calcEta RU now st = calcEta RU now' st /\
    (calcEta RU now st = "00:00:00"%string \/ calcEta RU now st = ""%string \/
     calcEta RU now st = "~"%string).
Proof.
  intros num N RU now now' st H. unfold calcEta.
  assert (Hrip : ripping_phase st ->
                 forall t, calcEtaTraced RU t st = (ExitTooFew, "~"%string)).
  { intros Hp t. rewrite (calcEtaTraced_ripping RU t st Hp).
    apply H, Nat.ltb_lt in Hp. now rewrite Hp. }
  unfold ripping_phase in Hrip.
  destruct (statusText st) eqn:E;
    try (rewrite !Hrip by auto; cbn; auto);
    unfold calcEtaTraced; rewrite E; cbn; auto.
Qed.

Lemma calcEta_fixed_without_intervals_witness :
  calcEta Sample.readerUtil Examples.now_0054 Logs.ripping
  = calcEta Sample.readerUtil Examples.now_0055 Logs.ripping.
Proof.
  apply (calcEta_fixed_without_intervals _ _ Sample.readerUtil
           Examples.now_0054 Examples.now_0055 Logs.ripping).
  intros [H|H]; vm_compute in H; discriminate H.
Defined.

(** ** The estimate in exact arithmetic *)

Section ExactEta.
Variable RU : ReaderUtil Exact.qnum.

Lemma Qred_Qred (x : Q) : Qred (Qred x) = Qred x.
Proof. apply Qred_complete, Qred_correct. Qed.

Lemma inject_Z_nonzero (z : Z) : z <> 0%Z -> Qeq_bool (inject_Z z) 0 = false.
Proof.
  intros Hz. destruct (Qeq_bool (inject_Z z) 0) eqn:E; [|reflexivity].
  apply Qeq_bool_eq in E. unfold Qeq in E. cbn in E. lia.
Qed.

(** The sum loop over the differences of finite timestamps telescopes. *)
Lemma exact_sum_telescopes (first : Q) (rest : list Q) :
  forall cur acc : Q,
    Qred acc = acc -> (acc == cur - first)%Q ->
    fold_left nadd (successive_differences (map Some (cur :: rest))) (Some acc)
    = Some (Qred (List.last (cur :: rest) 0%Q - first)).
Proof.
  induction rest as [|nxt rest IH]; intros cur acc Hc He.
  - cbn. f_equal. rewrite <- Hc. now apply Qred_complete.
  - change (fold_left nadd (successive_differences (map Some (cur :: nxt :: rest)))
              (Some acc))
      with (fold_left nadd (successive_differences (map Some (nxt :: rest)))
              (Some (Qred (acc + Qred (nxt - cur))))).
    rewrite (IH nxt (Qred (acc + Qred (nxt - cur)))).
    + reflexivity.
    + apply Qred_Qred.
    + rewrite !Qred_correct, He. ring.
Qed.

Lemma last_map_Some (first last : Q) (mid : list Q) :
  List.last (map Some (first :: mid ++ [last])) (NaN : Exact.qnum) = Some last.
Proof.
  rewrite app_comm_cons, map_app. cbn [map]. apply last_last.
Qed.

Lemma last_snoc_Q (first last : Q) (mid : list Q) :
  List.last (first :: mid ++ [last]) 0%Q = last.
Proof. rewrite app_comm_cons. apply last_last. Qed.

(** [remaining_seconds] from the first and the last timestamp alone. *)
Lemma exact_remaining_seconds (now : Exact.qnum) (st : StatusRecord Exact.qnum)
    (first last : Q) (mid : list Q) :
  estimator_points RU st = map Some (first :: mid ++ [last]) ->
  remaining_seconds RU now st =
    ndiv (nsub (nmul (ndiv (nsub (Some last) (Some first))
                           (nlit (Z.of_nat (S (length mid)))))
                     (nsub (numChapters st) (nlit (Z.of_nat (S (S (length mid)))))))
               (nsub now (Some last)))
         (nlit 1000).
Proof.
  intros Hp.
  assert (Hn : length (etaEstimators st) = S (S (length mid))).
  { apply (f_equal length) in Hp. unfold estimator_points in Hp.
    rewrite !length_map in Hp. cbn [length] in Hp. rewrite length_app in Hp.
    cbn [length] in Hp. lia. }
  unfold remaining_seconds, arithmetic_mean. rewrite Hn, Hp, last_map_Some.
  rewrite successive_differences_length, length_map. cbn [length].
  rewrite length_app. cbn [length].
  replace (S (length mid + 1) - 1) with (S (length mid)) by lia.
  change (@nlit Exact.qnum _ 0%Z) with (@Some Q (inject_Z 0)).
  unfold Exact.qnum.
  rewrite (exact_sum_telescopes first (mid ++ [last]) first (inject_Z 0)).
  - rewrite last_snoc_Q. reflexivity.
  - reflexivity.
  - change (inject_Z 0) with 0%Q. ring.
Qed.

End ExactEta.





(** ** A delivered record after the next call *)

Section Frozen.
Context {num : Type} {N : JSNumber num}.
Variable HB : HBStatus.
Variable RU : ReaderUtil num.
Variable seam : nat -> option num.

Abbreviation step' := (step HB RU seam).
Abbreviation run' := (run HB RU seam).

Lemma separate_step (w : World num) (e : Event num) :
  valid w -> separate w -> separate (step' w e).
Proof.
  intros Hv Hs i j l. destruct e as [k q'|k q' [ln|err|clock]]; cbn.
  - destruct (decide (k = i)) as [Hi|Hi], (decide (k = j)) as [Hj|Hj];
      subst; rewrite ?lookup_insert_eq, ?lookup_insert_ne by assumption.
    + reflexivity.
    + intros [= <-] H. apply Hv in H. lia.
    + intros H [= <-]. apply Hv in H. lia.
    + apply Hs.
  - rewrite update_status_this. apply Hs.
  - rewrite settle_this. apply Hs.
  - destruct (this_status w !! k); [|apply Hs].
    rewrite settle_this, update_status_this. apply Hs.
Qed.

Lemma separate_run (tr : list (Event num)) (w : World num) :
  valid w -> separate w -> separate (run' w tr).
Proof.
  revert w. induction tr as [|e tr IH]; intros w Hv Hs; [exact Hs|].
  refold_run. apply IH; [now apply valid_step | now apply separate_step].
Qed.

Lemma separate_noWorld : separate (noWorld (num := num)).
Proof. intros i j l. cbn. now rewrite lookup_empty. Qed.

(** No event makes an instance point to an object that already exists and
    that no instance points to, and no event writes to it. *)
Lemma unpointed_step (w : World num) (e : Event num) (l : nat) :
  unpointed w l ->
  unpointed (step' w e) l /\ heap (step' w e) !! l = heap w !! l.
Proof.
  intros [Hl Hp]. unfold unpointed.
  destruct e as [k q'|k q' [ln|err|clock]]; cbn.
  - split; [split|].
    + rewrite length_app. cbn. lia.
    + intros j. destruct (decide (k = j)) as [->|Hj].
      * rewrite lookup_insert_eq. intros [= H]. lia.
      * rewrite lookup_insert_ne by assumption. apply Hp.
    + now apply lookup_app_l.
  - rewrite update_status_this, update_status_heap.
    destruct (this_status w !! k) as [lk|] eqn:E.
    + rewrite length_alter. split; [split; assumption|].
      apply list_lookup_alter_ne. intros ->. now apply (Hp k).
    + split; [split; assumption | reflexivity].
  - rewrite settle_this, settle_heap.
    split; [split; assumption | reflexivity].
  - destruct (this_status w !! k) as [lk|] eqn:E;
      [|split; [split; assumption | reflexivity]].
    rewrite settle_this, settle_heap, update_status_this, update_status_heap, E.
    rewrite length_alter. split; [split; assumption|].
    apply list_lookup_alter_ne. intros ->. now apply (Hp k).
Qed.

(** A fulfilled promise stays fulfilled with the same object as long as the
    query is not started anew. *)
Lemma step_promise_fulfilled (q l : nat) (w : World num) (e : Event num) :
  starts q e = false ->
  promises w !! q = Some (Fulfilled l) ->
  promises (step' w e) !! q = Some (Fulfilled l).
Proof.
  intros Hs Hp. destruct (settles q e) eqn:Hq.
  - destruct e as [i q'|i q' [ln|err'|clock]]; cbn in *; try discriminate;
      apply bool_decide_eq_true in Hq; subst q'.
    + now rewrite settle_same, Hp.
    + destruct (this_status w !! i); [|exact Hp].
      now rewrite settle_same, update_status_promises, Hp.
  - now rewrite step_promise_quiet.
Qed.

Lemma run_frozen (q l m : nat) (tr : list (Event num)) (w : World num) :
  forallb (fun e => negb (starts q e)) tr = true ->
  unpointed w l ->
  promises w !! q = Some (Fulfilled m) ->
  heap (run' w tr) !! l = heap w !! l /\
  promises (run' w tr) !! q = Some (Fulfilled m).
Proof.
  revert w. induction tr as [|e tr IH]; intros w H Hu Hp; [auto|].
  cbn in H. apply andb_prop in H as [He Htr]. apply negb_true_iff in He.
  refold_run. destruct (unpointed_step w e l Hu) as [Hu' Hh].
  destruct (IH (step' w e) Htr Hu' (step_promise_fulfilled q m w e He Hp))
    as [IH1 IH2].
  split; [now rewrite IH1 | exact IH2].
Qed.

End Frozen.

(** X13: once getHBStatusItems is called again on an instance, the record
    that an earlier query on that instance resolved with is never written
    again: whatever events follow (of the new query, of other instances,
    stray late events of the earlier query), the earlier caller's snapshot
    stays as it is. *)
Theorem delivered_record_frozen_by_next_call :
  forall (num : Type) (N : JSNumber num) (HB : HBStatus) (RU : ReaderUtil num)
         (seam : nat -> option num) (pre rest : list (Event num))
         (a q q2 l : nat),
    promises (run HB RU seam noWorld pre) !! q = Some (Fulfilled l) ->
    this_status (run HB RU seam noWorld pre) !! a = Some l ->
    forallb (fun e => negb (starts q e)) (Call a q2 :: rest) = true ->
    outcome (run HB RU seam noWorld (pre ++ Call a q2 :: rest)) q
    = outcome (run HB RU seam noWorld pre) q.
Proof.
  intros num N HB RU seam pre rest a q q2 l Hq Ha Hrest.
  rewrite run_app. set (w := run HB RU seam noWorld pre) in *.
  assert (Hv : valid w) by apply valid_run, valid_noWorld.
  assert (Hs : separate w)
    by (apply separate_run; [apply valid_noWorld | apply separate_noWorld]).
  clearbody w. cbn in Hrest. apply andb_prop in Hrest as [Hq2 Hrest].
  apply negb_true_iff, bool_decide_eq_false in Hq2.
  refold_run. set (w1 := step HB RU seam w (Call a q2)).
  assert (Hu : unpointed w1 l).
  { subst w1. split; cbn.
    - rewrite length_app. apply Hv in Ha. lia.
    - intros j. destruct (decide (a = j)) as [->|Hj].
      + rewrite lookup_insert_eq. intros [= H]. apply Hv in Ha. lia.
      + rewrite lookup_insert_ne by assumption. intros H. apply Hj.
        exact (Hs a j l Ha H). }
  assert (Hp1 : promises w1 !! q = Some (Fulfilled l))
    by (subst w1; cbn; now rewrite lookup_insert_ne).
  assert (Hh1 : heap w1 !! l = heap w !! l)
    by (subst w1; cbn; apply lookup_app_l; now apply Hv in Ha).
  destruct (run_frozen HB RU seam q l l rest w1 Hrest Hu Hp1) as [Hh Hp].
  unfold outcome. now rewrite Hp, Hh, Hh1, Hq.
Qed.

Lemma delivered_record_frozen_by_next_call_witness :
  outcome (run Sample.hbStatus Sample.readerUtil Sample.noSeam noWorld
             (Runs.earlier ++ Call 0 1 :: MoreExamples.afterwards)) 0
  = outcome (run Sample.hbStatus Sample.readerUtil Sample.noSeam noWorld
               Runs.earlier) 0.
Proof.
  apply (delivered_record_frozen_by_next_call _ _ Sample.hbStatus Sample.readerUtil
           Sample.noSeam Runs.earlier MoreExamples.afterwards 0 0 1 0).
  - vm_compute. reflexivity.
  - vm_compute. reflexivity.
  - vm_compute. reflexivity.
Defined.

(** X14: from the call until its own interface emits 'close' or 'error', the
    promise of a query is pending, whatever its lines hold and whatever
    other queries do meanwhile: no partial replay is delivered. *)
Theorem query_pending_until_close_or_error :
  forall (num : Type) (N : JSNumber num) (HB : HBStatus) (RU : ReaderUtil num)
         (seam : nat -> option num) (w : World num) (i q : nat)
         (mid : list (Event num)),
    forallb (fun e => negb (starts q e) && negb (settles q e)) mid = true ->
    outcome (run HB RU seam w (Call i q :: mid)) q = StillPending.
Proof.
  intros num N HB RU seam w i q mid Hmid. refold_run.
  unfold outcome. rewrite run_promise_quiet by exact Hmid.
  cbn. now rewrite lookup_insert_eq.
Qed.

Lemma query_pending_until_close_or_error_witness :
  outcome (run Sample.hbStatus Sample.readerUtil Sample.noSeam noWorld
             (Call 0 1 :: Runs.failing_mid ++ [Call 1 2; Emit 1 2 (EvClose Runs.clock)]))
          1 = StillPending.
Proof.
  apply (query_pending_until_close_or_error _ _ Sample.hbStatus Sample.readerUtil
           Sample.noSeam noWorld 0 1
           (Runs.failing_mid ++ [Call 1 2; Emit 1 2 (EvClose Runs.clock)])).
  reflexivity.
Defined.


